(** * CineScope: the response cache and the browse controller

    A shallow embedding of the parts of the CineScope front-end that carry
    logic: [MovieAPI] (URL construction, the time-stamped response cache,
    [fetchData] and the list endpoints), [UIManager] (category switching,
    debounced search, pagination, [loadMovies]), and the two loaders of
    persisted state ([AuthManager.initializeAuth] and
    [FavoritesManager.loadFavorites]).

    JavaScript runs these handlers on one thread: a handler runs until it
    returns or reaches an [await], and the rest of an [async] function runs
    later, when the awaited promise settles.  Every [async] method is
    therefore split into the part that runs at the call ([_start]) and the
    part that runs at the settlement ([_resume]); the suspended call is kept
    in the state.  [Date.now()] is the field [now] of the state. *)

From Stdlib Require Import ZArith String Ascii List Bool Lia DecimalString DecimalPos DecimalZ.
From stdpp Require Import gmap strings list.

Open Scope Z_scope.

(** ** Strings

    A string is the UTF-8 encoding of the JavaScript string, byte by byte.
    [String.prototype.trim] removes from both ends the code points of
    WhiteSpace and LineTerminator: TAB, LF, VT, FF, CR, SP, U+00A0, U+1680,
    U+2000 to U+200A, U+2028, U+2029, U+202F, U+205F, U+3000 and U+FEFF.
    All of them lie in the basic plane, and in UTF-8 they take one, two or
    three bytes.  In well-formed UTF-8 no code point begins inside another,
    so the bytes of one of them at an end of the string are that code
    point. *)

(** TAB, LF, VT, FF, CR (09 to 0D) and SP (20). *)
Definition is_ws1 (c : ascii) : bool :=
  let n := N_of_ascii c in
  ((9 <=? n)%N && (n <=? 13)%N) || (n =? 32)%N.

(** U+00A0, the no-break space: C2 A0. *)
Definition is_ws2 (c1 c2 : ascii) : bool :=
  (N_of_ascii c1 =? 194)%N && (N_of_ascii c2 =? 160)%N.

(** U+1680 (E1 9A 80); U+2000 to U+200A (E2 80 80 to E2 80 8A); U+2028 and
    U+2029 (E2 80 A8, E2 80 A9); U+202F (E2 80 AF); U+205F (E2 81 9F);
    U+3000 (E3 80 80); U+FEFF (EF BB BF). *)
Definition is_ws3 (c1 c2 c3 : ascii) : bool :=
  let n1 := N_of_ascii c1 in
  let n2 := N_of_ascii c2 in
  let n3 := N_of_ascii c3 in
  ((n1 =? 225) && (n2 =? 154) && (n3 =? 128))%N
  || ((n1 =? 226) && (n2 =? 128)
      && (((128 <=? n3) && (n3 <=? 138)) || (n3 =? 168) || (n3 =? 169) || (n3 =? 175)))%N
  || ((n1 =? 226) && (n2 =? 129) && (n3 =? 159))%N
  || ((n1 =? 227) && (n2 =? 128) && (n3 =? 128))%N
  || ((n1 =? 239) && (n2 =? 187) && (n3 =? 191))%N.

(** The strings that are exactly one code point of white space. *)
Definition is_white (s : string) : bool :=
  match s with
  | String c1 EmptyString => is_ws1 c1
  | String c1 (String c2 EmptyString) => is_ws2 c1 c2
  | String c1 (String c2 (String c3 EmptyString)) => is_ws3 c1 c2 c3
  | _ => false
  end.

Fixpoint trimStart (s : string) : string :=
  match s with
  | EmptyString => EmptyString
  | String c1 s1 =>
      if is_ws1 c1 then trimStart s1 else
      match s1 with
      | String c2 s2 =>
          if is_ws2 c1 c2 then trimStart s2 else
          match s2 with
          | String c3 s3 => if is_ws3 c1 c2 c3 then trimStart s3 else s
          | EmptyString => s
          end
      | EmptyString => s
      end
  end.

(** From the end: the rest is trimmed first; what is left of the string is
    dropped when it is one code point of white space, which is then the
    last code point before the white space already removed. *)
Fixpoint trimEnd (s : string) : string :=
  match s with
  | EmptyString => EmptyString
  | String c s' =>
      let t := String c (trimEnd s') in
      if is_white t then EmptyString else t
  end.

Definition trim (s : string) : string := trimEnd (trimStart s).

(** The strings that are empty or made of white space only: a sequence of
    code points of white space, read from the left. *)
Fixpoint is_blank (s : string) : bool :=
  match s with
  | EmptyString => true
  | String c1 s1 =>
      if is_ws1 c1 then is_blank s1 else
      match s1 with
      | String c2 s2 =>
          if is_ws2 c1 c2 then is_blank s2 else
          match s2 with
          | String c3 s3 => if is_ws3 c1 c2 c3 then is_blank s3 else false
          | EmptyString => false
          end
      | EmptyString => false
      end
  end.

(** U+00A0 as the string holds it. *)
Definition no_break_space : string :=
  String (ascii_of_N 194) (String (ascii_of_N 160) EmptyString).

(** A string in a boolean position: only the empty string is falsy. *)
Definition nonempty (s : string) : bool :=
  match s with EmptyString => false | _ => true end.

(** [String(n)] for an integer. *)
Definition string_of_Z (z : Z) : string := NilZero.string_of_int (Z.to_int z).

(** ** JavaScript values

    The values that [JSON.parse] and [response.json()] produce.  Numbers are
    integers: page counts, identifiers and times are the only numbers the
    modelled code computes with.  A missing property ([undefined]) is [None]
    of [get_field]. *)

#[local] Set Warnings "-register-all".

Inductive Json : Type :=
  | JNull
  | JBool (b : bool)
  | JNum (n : Z)
  | JStr (s : string)
  | JArr (items : list Json)
  | JObj (fields : list (string * Json)).

Fixpoint assoc (k : string) (l : list (string * Json)) : option Json :=
  match l with
  | [] => None
  | (k', v) :: l' => if String.eqb k k' then Some v else assoc k l'
  end.

(** [v.name] for the own properties of a parsed object; a later duplicate of a
    key wins in [JSON.parse], so the fields are searched from the end. *)
Definition get_field (name : string) (v : Json) : option Json :=
  match v with
  | JObj fields => assoc name (rev fields)
  | _ => None
  end.

Definition truthy (v : Json) : bool :=
  match v with
  | JNull => false
  | JBool b => b
  | JNum n => negb (n =? 0)
  | JStr s => nonempty s
  | JArr _ | JObj _ => true
  end.

(** [if (x.name)] where the property may be missing. *)
Definition truthy_opt (v : option Json) : bool :=
  match v with Some x => truthy x | None => false end.

(** A value inside a template literal.  An array prints its elements joined
    by commas, with [null] printed as nothing; an object prints as
    [[object Object]]. *)
Fixpoint js_to_string (v : Json) : string :=
  match v with
  | JNull => "null"
  | JBool true => "true"
  | JBool false => "false"
  | JNum n => string_of_Z n
  | JStr s => s
  | JArr items =>
      (fix join (l : list Json) : string :=
         match l with
         | [] => ""
         | [x] => match x with JNull => "" | _ => js_to_string x end
         | x :: l' =>
             (match x with JNull => "" | _ => js_to_string x end)
               +:+ "," +:+ join l'
         end) items
  | JObj _ => "[object Object]"
  end.

Definition template (v : option Json) : string :=
  match v with Some x => js_to_string x | None => "undefined" end.

(** [===] / SameValueZero on values that were parsed separately: primitives
    compare by value, two arrays or objects are never the same reference. *)
Definition same_value (a b : Json) : bool :=
  match a, b with
  | JNull, JNull => true
  | JBool x, JBool y => Bool.eqb x y
  | JNum x, JNum y => x =? y
  | JStr x, JStr y => String.eqb x y
  | _, _ => false
  end.

(** ** MovieAPI *)

Module MovieAPI.

Record CacheEntry := { data : Json; timestamp : Z }.

Record t := {
  apiKey : option string;            (* null until loadApiKey answers *)
  cache : gmap string CacheEntry
}.

Definition baseURL : string := "https://api.themoviedb.org/3".

(** [this.cacheExpiry = 5 * 60 * 1000] *)
Definition cacheExpiry : Z := 5 * 60 * 1000.

Definition with_cache (c : gmap string CacheEntry) (a : t) : t :=
  {| apiKey := apiKey a; cache := c |}.

(** *** buildURL *)

(** [url.searchParams.set(key, value)]: the first pair with that key takes
    the value and the later ones go; a new key is appended. *)
Fixpoint drop_key (k : string) (l : list (string * string)) :=
  match l with
  | [] => []
  | (k', v') :: l' =>
      if String.eqb k k' then drop_key k l' else (k', v') :: drop_key k l'
  end.

Fixpoint set_param (k v : string) (l : list (string * string)) :=
  match l with
  | [] => [(k, v)]
  | (k', v') :: l' =>
      if String.eqb k k' then (k, v) :: drop_key k l'
      else (k', v') :: set_param k v l'
  end.

Definition hex_digit (n : N) : ascii :=
  ascii_of_N (if (n <? 10)%N then 48 + n else 55 + n)%N.

(** The application/x-www-form-urlencoded byte serialiser. *)
Definition encode_byte (c : ascii) : string :=
  let n := N_of_ascii c in
  if (n =? 32)%N then "+"
  else if ((48 <=? n) && (n <=? 57) || (65 <=? n) && (n <=? 90)
           || (97 <=? n) && (n <=? 122)
           || (n =? 42) || (n =? 45) || (n =? 46) || (n =? 95))%N
  then String c EmptyString
  else String "%"%char (String (hex_digit (n / 16)) (String (hex_digit (n mod 16)) EmptyString)).

Fixpoint encode (s : string) : string :=
  match s with
  | EmptyString => EmptyString
  | String c s' => encode_byte c +:+ encode s'
  end.

Fixpoint serialize (l : list (string * string)) : string :=
  match l with
  | [] => ""
  | [(k, v)] => encode k +:+ "=" +:+ encode v
  | (k, v) :: l' => encode k +:+ "=" +:+ encode v +:+ "&" +:+ serialize l'
  end.

(** A parameter of a call: [null] and [undefined] are skipped by
    [buildURL], a number is converted by [searchParams.set]. *)
Inductive Param := PNone | PNum (n : Z) | PStr (s : string).

Definition add_param (acc : list (string * string)) (p : string * Param) :=
  match snd p with
  | PNone => acc
  | PNum n => set_param (fst p) (string_of_Z n) acc
  | PStr s => set_param (fst p) s acc
  end.

Definition buildURL (a : t) (endpoint : string) (params : list (string * Param)) : string :=
  let key := match apiKey a with Some k => k | None => "null" end in
  baseURL +:+ endpoint +:+ "?"
    +:+ serialize (fold_left add_param params (set_param "api_key" key [])).

Definition getCacheKey (url : string) : string := url.

(** *** The cache *)

Definition setCache (now : Z) (key : string) (d : Json) (a : t) : t :=
  with_cache (<[key := {| data := d; timestamp := now |}]> (cache a)) a.

(** Returns the value handed back ([JNull] for [null]) and the API object
    after the call. *)
Definition getCache (now : Z) (key : string) (a : t) : Json * t :=
  match cache a !! key with
  | None => (JNull, a)
  | Some cached =>
      let isExpired := cacheExpiry <? now - timestamp cached in
      if isExpired then (JNull, with_cache (delete key (cache a)) a)
      else (data cached, a)
  end.

(** *** fetchData

    What an [async] call has reached when control returns to its caller:
    it has returned or thrown already, or it waits for the answer to a
    network request. *)
Inductive Started :=
  | Returned (v : Json)
  | Waiting (url : string).

(** The answer to [fetch(url)] followed by [response.json()]: the parsed
    body of a successful answer, or a failure (no connection, a status that
    is not ok, a body that is not JSON). *)
Inductive HttpResult := HttpOk (body : Json) | HttpFail.

Definition fetch_error : string :=
  "Failed to fetch data. Please check your internet connection.".

Definition fetchData_start (now : Z) (endpoint : string)
    (params : list (string * Param)) (a : t) : Started * t :=
  let url := buildURL a endpoint params in
  let cacheKey := getCacheKey url in
  let '(cached, a1) := getCache now cacheKey a in
  if truthy cached then (Returned cached, a1) else (Waiting url, a1).

(** The rest of [fetchData] once the request for [url] is answered:
    the value returned, or the message of the error thrown. *)
Definition fetchData_resume (now : Z) (url : string) (r : HttpResult) (a : t)
    : (Json + string) * t :=
  match r with
  | HttpOk d => (inl d, setCache now (getCacheKey url) d a)
  | HttpFail => (inr fetch_error, a)
  end.

Definition getTrendingMovies now (page : Z) a :=
  fetchData_start now "/trending/movie/week" [("page", PNum page)] a.
Definition getPopularMovies now (page : Z) a :=
  fetchData_start now "/movie/popular" [("page", PNum page)] a.
Definition getTopRatedMovies now (page : Z) a :=
  fetchData_start now "/movie/top_rated" [("page", PNum page)] a.
Definition getUpcomingMovies now (page : Z) a :=
  fetchData_start now "/movie/upcoming" [("page", PNum page)] a.

(** [{ results: [], total_pages: 0, page: 1 }] *)
Definition no_results : Json :=
  JObj [("results", JArr []); ("total_pages", JNum 0); ("page", JNum 1)].

Definition searchMovies (now : Z) (query : string) (page : Z) (a : t) : Started * t :=
  if negb (nonempty (trim query)) then (Returned no_results, a)
  else fetchData_start now "/search/movie"
         [("query", PStr (trim query)); ("page", PNum page)] a.

Definition getMovieDetails (now : Z) (movieId : Json) (a : t) : Started * t :=
  fetchData_start now ("/movie/" +:+ js_to_string movieId)
    [("append_to_response", PStr "credits,videos,similar")] a.

End MovieAPI.

(** ** Persisted state: the session and the favourites

    [localStorage] is a map from keys to strings.  [JSON.parse] is the
    browser's: it is a parameter, [None] standing for the [SyntaxError] it
    throws.  The handlers are written for a page that has the elements they
    look up, so the only exceptions are those of [JSON.parse] and of
    [new Set]. *)

(** [new Set(v)]: the elements of an iterable without repetition, in the
    order of their first occurrence; [None] is the [TypeError] for a value
    that cannot be iterated.  [new Set(null)] is the empty set. *)
Definition add_to_set (acc : list Json) (x : Json) : list Json :=
  if existsb (same_value x) acc then acc else acc ++ [x].

Fixpoint chars (s : string) : list Json :=
  match s with
  | EmptyString => []
  | String c s' => JStr (String c EmptyString) :: chars s'
  end.

Definition new_Set (v : Json) : option (list Json) :=
  match v with
  | JNull => Some []
  | JArr items => Some (fold_left add_to_set items [])
  | JStr s => Some (fold_left add_to_set (chars s) [])
  | JBool _ | JNum _ | JObj _ => None
  end.

Definition is_null (v : Json) : bool :=
  match v with JNull => true | _ => false end.

Section Persisted.

Variable JSON_parse : string -> option Json.

(** [AuthManager.initializeAuth]: the current user and the store after the
    call. *)
Definition initializeAuth (currentUser : Json) (store : gmap string string)
    : Json * gmap string string :=
  match store !! "cinescope_user" with
  | Some savedUser =>
      if nonempty savedUser then
        match JSON_parse savedUser with
        | Some user => (user, store)
        | None => (currentUser, delete "cinescope_user" store)
        end
      else (currentUser, store)
  | None => (currentUser, store)
  end.

(** [new AuthManager()]: [currentUser] starts as [null]. *)
Definition AuthManager_new (store : gmap string string) : Json * gmap string string :=
  initializeAuth JNull store.

(** [FavoritesManager.loadFavorites].  [authManager] is [None] while
    [window.authManager] is not yet defined. *)
Definition loadFavorites (authManager : option Json) (favorites : list Json)
    (store : gmap string string) : list Json * gmap string string :=
  match authManager with
  | None => ([], store)
  | Some currentUser =>
      if is_null currentUser then ([], store)
      else
        let userId := get_field "id" currentUser in
        match store !! ("favorites_" +:+ template userId) with
        | Some savedFavorites =>
            if nonempty savedFavorites then
              match JSON_parse savedFavorites with
              | Some favoritesArray =>
                  match new_Set favoritesArray with
                  | Some set => (set, store)
                  | None => ([], store)
                  end
              | None => ([], store)
              end
            else (favorites, store)
        | None => (favorites, store)
        end
  end.

End Persisted.

(** ** The page: UIManager and what it works on *)

Record UIManager := {
  currentPage : Z;
  currentCategory : string;
  currentSearchQuery : string;
  isLoading : bool;
  hasMorePages : bool;
  searchTimeout : option Z              (* null, or the handle of setTimeout *)
}.

(** The part of the document the controller writes to: the children of
    [#moviesGrid], the error panel, the load-more button and the spinner.
    Titles, button highlights and the text of the search box are not
    modelled. *)
Inductive GridItem :=
  | SkeletonCard
  | MovieCard (movie : Json)
  | EmptyState.

Record Display := {
  moviesGrid : list GridItem;
  errorHidden : bool;
  errorMessage : string;
  loadMoreHidden : bool;
  spinnerHidden : bool
}.

(** What the suspended [loadMovies] waits for: a promise that is settled
    already (a cache hit, the empty search, no favourites), the answer to one
    request, or the answers to the requests of [getFavoriteMovies], one slot
    per favourite ([inl]: the movie or [null]; [inr]: the URL waited for). *)
Inductive Await :=
  | AwSettled (r : Json + string)
  | AwFetch (url : string)
  | AwFavorites (slots : list (Json + string)).

(** A pending [setTimeout] of [handleSearch]. *)
Record Timer := { timer_id : Z; deadline : Z; timer_query : string }.

(** What the page does that can be observed from outside the controller. *)
Inductive Action :=
  | Call_performSearch (query : string)
  | Call_searchMovies (query : string) (page : Z)
  | Call_category (method : string) (page : Z)
  | Call_getFavoriteMovies
  | Net_fetch (url : string).

Record World := {
  now : Z;                              (* Date.now() *)
  ui : UIManager;                       (* window.uiManager *)
  api : MovieAPI.t;                     (* window.movieAPI *)
  dom : Display;
  currentUser : Json;                   (* window.authManager.currentUser *)
  favorites : list Json;                (* window.favoritesManager.favorites *)
  awaiting : option Await;
  timers : list Timer;
  next_timer : Z;
  journal : list Action
}.

Definition with_ui (u : UIManager) (w : World) : World :=
  {| now := now w; ui := u; api := api w; dom := dom w; currentUser := currentUser w;
     favorites := favorites w; awaiting := awaiting w; timers := timers w;
     next_timer := next_timer w; journal := journal w |}.

Definition with_api (a : MovieAPI.t) (w : World) : World :=
  {| now := now w; ui := ui w; api := a; dom := dom w; currentUser := currentUser w;
     favorites := favorites w; awaiting := awaiting w; timers := timers w;
     next_timer := next_timer w; journal := journal w |}.

Definition with_dom (d : Display) (w : World) : World :=
  {| now := now w; ui := ui w; api := api w; dom := d; currentUser := currentUser w;
     favorites := favorites w; awaiting := awaiting w; timers := timers w;
     next_timer := next_timer w; journal := journal w |}.

Definition with_awaiting (k : option Await) (w : World) : World :=
  {| now := now w; ui := ui w; api := api w; dom := dom w; currentUser := currentUser w;
     favorites := favorites w; awaiting := k; timers := timers w;
     next_timer := next_timer w; journal := journal w |}.

Definition with_timers (l : list Timer) (next : Z) (w : World) : World :=
  {| now := now w; ui := ui w; api := api w; dom := dom w; currentUser := currentUser w;
     favorites := favorites w; awaiting := awaiting w; timers := l;
     next_timer := next; journal := journal w |}.

Definition with_now (t : Z) (w : World) : World :=
  {| now := t; ui := ui w; api := api w; dom := dom w; currentUser := currentUser w;
     favorites := favorites w; awaiting := awaiting w; timers := timers w;
     next_timer := next_timer w; journal := journal w |}.

Definition record (a : Action) (w : World) : World :=
  {| now := now w; ui := ui w; api := api w; dom := dom w; currentUser := currentUser w;
     favorites := favorites w; awaiting := awaiting w; timers := timers w;
     next_timer := next_timer w; journal := journal w ++ [a] |}.

(** *** Display helpers *)

Definition showError (message : string) (w : World) : World :=
  with_dom {| moviesGrid := moviesGrid (dom w); errorHidden := false;
              errorMessage := message; loadMoreHidden := loadMoreHidden (dom w);
              spinnerHidden := spinnerHidden (dom w) |} w.

Definition hideError (w : World) : World :=
  with_dom {| moviesGrid := moviesGrid (dom w); errorHidden := true;
              errorMessage := errorMessage (dom w);
              loadMoreHidden := loadMoreHidden (dom w);
              spinnerHidden := spinnerHidden (dom w) |} w.

Definition set_grid (g : list GridItem) (w : World) : World :=
  with_dom {| moviesGrid := g; errorHidden := errorHidden (dom w);
              errorMessage := errorMessage (dom w);
              loadMoreHidden := loadMoreHidden (dom w);
              spinnerHidden := spinnerHidden (dom w) |} w.

Definition set_spinnerHidden (b : bool) (w : World) : World :=
  with_dom {| moviesGrid := moviesGrid (dom w); errorHidden := errorHidden (dom w);
              errorMessage := errorMessage (dom w);
              loadMoreHidden := loadMoreHidden (dom w);
              spinnerHidden := b |} w.

(** [updateLoadMoreButton(show = null)] *)
Definition updateLoadMoreButton (show : option bool) (w : World) : World :=
  let shouldShow :=
    match show with
    | Some b => b
    | None => hasMorePages (ui w) && negb (isLoading (ui w))
    end in
  with_dom {| moviesGrid := moviesGrid (dom w); errorHidden := errorHidden (dom w);
              errorMessage := errorMessage (dom w);
              loadMoreHidden := negb shouldShow;
              spinnerHidden := spinnerHidden (dom w) |} w.

Definition clearMoviesGrid (w : World) : World :=
  updateLoadMoreButton (Some false) (set_grid [] w).

(** [createSkeletonCards(count = 20)] *)
Definition createSkeletonCards (w : World) : World :=
  set_grid (repeat SkeletonCard 20) w.

Definition set_isLoading (b : bool) (u : UIManager) : UIManager :=
  {| currentPage := currentPage u; currentCategory := currentCategory u;
     currentSearchQuery := currentSearchQuery u; isLoading := b;
     hasMorePages := hasMorePages u; searchTimeout := searchTimeout u |}.

Definition set_hasMorePages (b : bool) (u : UIManager) : UIManager :=
  {| currentPage := currentPage u; currentCategory := currentCategory u;
     currentSearchQuery := currentSearchQuery u; isLoading := isLoading u;
     hasMorePages := b; searchTimeout := searchTimeout u |}.

Definition set_currentPage (p : Z) (u : UIManager) : UIManager :=
  {| currentPage := p; currentCategory := currentCategory u;
     currentSearchQuery := currentSearchQuery u; isLoading := isLoading u;
     hasMorePages := hasMorePages u; searchTimeout := searchTimeout u |}.

Definition set_searchTimeout (h : option Z) (u : UIManager) : UIManager :=
  {| currentPage := currentPage u; currentCategory := currentCategory u;
     currentSearchQuery := currentSearchQuery u; isLoading := isLoading u;
     hasMorePages := hasMorePages u; searchTimeout := h |}.

Definition setLoadingState (loading : bool) (w : World) : World :=
  let w1 := with_ui (set_isLoading loading (ui w)) w in
  if loading && (currentPage (ui w1) =? 1)
  then createSkeletonCards (set_spinnerHidden false w1)
  else set_spinnerHidden true w1.

(** *** renderMovies *)

(** [createMovieCard(movie)]: [None] is the [TypeError] raised for reading a
    property of [null], or by [formatRating] when [vote_average] is a truthy
    value that is not a number. *)
Definition createMovieCard (movie : Json) : option GridItem :=
  match movie with
  | JNull => None
  | _ =>
      match get_field "vote_average" movie with
      | None | Some (JNum _) => Some (MovieCard movie)
      | Some v => if truthy v then None else Some (MovieCard movie)
      end
  end.

(** [movies.forEach(...)] on an array: the cards are appended one by one, and
    an exception leaves the cards appended so far. *)
Fixpoint append_cards (movies : list Json) (grid : list GridItem) : list GridItem * bool :=
  match movies with
  | [] => (grid, false)
  | movie :: rest =>
      match createMovieCard movie with
      | None => (grid, true)
      | Some card => append_cards rest (grid ++ [card])
      end
  end.

(** [movies.length === 0] *)
Definition length_is_zero (movies : Json) : bool :=
  match movies with
  | JArr [] => true
  | JStr EmptyString => true
  | JObj _ => match get_field "length" movies with Some (JNum 0) => true | _ => false end
  | _ => false
  end.

Definition showEmptyState (w : World) : World := set_grid [EmptyState] w.

(** The page after the call, and whether the call threw. *)
Definition renderMovies (movies : Json) (clearGrid : bool) (w : World) : World * bool :=
  let w1 := if clearGrid then set_grid [] w else w in
  if length_is_zero movies && clearGrid then (showEmptyState w1, false)
  else
    match movies with
    | JArr items =>
        let '(grid, threw) := append_cards items (moviesGrid (dom w1)) in
        (set_grid grid w1, threw)
    | _ => (w1, true)
    end.

(** *** loadMovies *)

Definition apiMethods (category : string) : option string :=
  if String.eqb category "trending" then Some "getTrendingMovies"
  else if String.eqb category "popular" then Some "getPopularMovies"
  else if String.eqb category "top_rated" then Some "getTopRatedMovies"
  else if String.eqb category "upcoming" then Some "getUpcomingMovies"
  else None.

(** [window.movieAPI[method](page)] for the four names of [apiMethods]. *)
Definition call_method (method : string) (t : Z) (page : Z) (a : MovieAPI.t)
    : MovieAPI.Started * MovieAPI.t :=
  if String.eqb method "getTrendingMovies" then MovieAPI.getTrendingMovies t page a
  else if String.eqb method "getPopularMovies" then MovieAPI.getPopularMovies t page a
  else if String.eqb method "getTopRatedMovies" then MovieAPI.getTopRatedMovies t page a
  else MovieAPI.getUpcomingMovies t page a.

(** [this.currentPage < response.total_pages].  The upstream sends a number;
    a missing property compares as NaN, and so does here a string, an array
    or an object in its place. *)
Definition lt_js (page : Z) (v : option Json) : bool :=
  match v with
  | Some (JNum n) => page <? n
  | Some JNull => page <? 0
  | Some (JBool b) => page <? (if b then 1 else 0)
  | _ => false
  end.

(** The message of a [TypeError]; its wording depends on the engine. *)
Definition type_error : string := "TypeError".

Definition no_results_found : string := "No results found".

(** [response && response.results], when truthy. *)
Definition results_of (response : Json) : option Json :=
  if truthy response then
    match get_field "results" response with
    | Some results => if truthy results then Some results else None
    | None => None
    end
  else None.

(** The rest of [loadMovies] after its [await]: [inl] is the value of the
    awaited promise, [inr] the message of the error it was rejected with. *)
Definition loadMovies_resume (r : Json + string) (w : World) : World :=
  let w1 :=
    match r with
    | inl response =>
        match results_of response with
        | Some results =>
            let '(w2, threw) := renderMovies results (currentPage (ui w) =? 1) w in
            if threw then showError type_error w2
            else
              let more := lt_js (currentPage (ui w2)) (get_field "total_pages" response) in
              updateLoadMoreButton None (with_ui (set_hasMorePages more (ui w2)) w2)
        | None => showError no_results_found w
        end
    | inr message => showError message w
    end in
  setLoadingState false w1.

(** [FavoritesManager.getFavoriteMovies]: one [getMovieDetails] per favourite,
    started in order. *)
Fixpoint favorite_requests (t : Z) (ids : list Json) (a : MovieAPI.t)
    : list (Json + string) * MovieAPI.t :=
  match ids with
  | [] => ([], a)
  | id :: rest =>
      let '(st, a1) := MovieAPI.getMovieDetails t id a in
      let '(slots, a2) := favorite_requests t rest a1 in
      (match st with
       | MovieAPI.Returned v => inl v
       | MovieAPI.Waiting url => inr url
       end :: slots, a2)
  end.

Fixpoint waiting_urls (slots : list (Json + string)) : list string :=
  match slots with
  | [] => []
  | inl _ :: rest => waiting_urls rest
  | inr url :: rest => url :: waiting_urls rest
  end.

(** The values of the slots when none is waiting. *)
Fixpoint all_settled (slots : list (Json + string)) : option (list Json) :=
  match slots with
  | [] => Some []
  | inl v :: rest => option_map (cons v) (all_settled rest)
  | inr _ :: _ => None
  end.

(** [{ results: favoriteMovies, total_pages: 1, page: 1 }] after
    [favoriteMovies.filter(movie => movie !== null)]. *)
Definition favorites_response (movies : list Json) : Json :=
  JObj [("results", JArr (List.filter (fun m => negb (is_null m)) movies));
        ("total_pages", JNum 1); ("page", JNum 1)].

Definition suspend (st : MovieAPI.Started) (w : World) : World :=
  match st with
  | MovieAPI.Returned v => with_awaiting (Some (AwSettled (inl v))) w
  | MovieAPI.Waiting url => with_awaiting (Some (AwFetch url)) (record (Net_fetch url) w)
  end.

Definition getFavoriteMovies (w : World) : World :=
  if is_null (currentUser w) then with_awaiting (Some (AwSettled (inl (favorites_response [])))) w
  else
    match favorites w with
    | [] => with_awaiting (Some (AwSettled (inl (favorites_response [])))) w
    | favoriteIds =>
        let '(slots, a) := favorite_requests (now w) favoriteIds (api w) in
        let w1 := fold_left (fun w url => record (Net_fetch url) w) (waiting_urls slots)
                    (with_api a w) in
        match all_settled slots with
        | Some movies => with_awaiting (Some (AwSettled (inl (favorites_response movies)))) w1
        | None => with_awaiting (Some (AwFavorites slots)) w1
        end
    end.

(** [loadMovies] up to its [await] (or to its end, when nothing is awaited). *)
Definition loadMovies (w : World) : World :=
  if isLoading (ui w) then w
  else
    let w1 := hideError (setLoadingState true w) in
    let page := currentPage (ui w1) in
    if nonempty (currentSearchQuery (ui w1)) then
      let query := currentSearchQuery (ui w1) in
      let '(st, a) := MovieAPI.searchMovies (now w1) query page (api w1) in
      suspend st (with_api a (record (Call_searchMovies query page) w1))
    else if String.eqb (currentCategory (ui w1)) "favorites" then
      getFavoriteMovies (record Call_getFavoriteMovies w1)
    else
      match apiMethods (currentCategory (ui w1)) with
      | Some method =>
          let '(st, a) := call_method method (now w1) page (api w1) in
          suspend st (with_api a (record (Call_category method page) w1))
      | None => setLoadingState false (showError no_results_found w1)
      end.

(** *** The handlers of UIManager *)

Definition switchCategory (category : string) (w : World) : World :=
  if String.eqb category (currentCategory (ui w)) && negb (nonempty (currentSearchQuery (ui w)))
  then w
  else
    let u := {| currentPage := 1; currentCategory := category;
                currentSearchQuery := ""; isLoading := isLoading (ui w);
                hasMorePages := true; searchTimeout := searchTimeout (ui w) |} in
    loadMovies (clearMoviesGrid (with_ui u w)).

Definition performSearch (query : string) (w : World) : World :=
  let u := {| currentPage := 1; currentCategory := currentCategory (ui w);
              currentSearchQuery := trim query; isLoading := isLoading (ui w);
              hasMorePages := true; searchTimeout := searchTimeout (ui w) |} in
  loadMovies (clearMoviesGrid (with_ui u (record (Call_performSearch query) w))).

(** [clearTimeout(id)] *)
Definition clearTimeout (id : Z) (l : list Timer) : list Timer :=
  List.filter (fun tm => negb (timer_id tm =? id)) l.

(** [handleSearch]: the handle that [setTimeout] returns is a number not
    handed out before, here the next one. *)
Definition handleSearch (query : string) (w : World) : World :=
  let pending :=
    match searchTimeout (ui w) with
    | Some id => if id =? 0 then timers w else clearTimeout id (timers w)
    | None => timers w
    end in
  let id := next_timer w in
  let tm := {| timer_id := id; deadline := now w + 300; timer_query := query |} in
  with_ui (set_searchTimeout (Some id) (ui w)) (with_timers (pending ++ [tm]) (id + 1) w).

Definition loadMoreMovies (w : World) : World :=
  if isLoading (ui w) || negb (hasMorePages (ui w)) then w
  else loadMovies (with_ui (set_currentPage (currentPage (ui w) + 1) (ui w)) w).

(** *** Events *)

Inductive Event :=
  | Click_filter (category : string)    (* a filter button, or Alt+1..5 *)
  | Input_search (text : string)        (* [input] on the search box *)
  | Timeout (id : Z)                    (* the timer [id] runs out *)
  | Click_loadMore
  | Scroll_sentinel                     (* the sentinel of the infinite scroll shows *)
  | Click_retry
  | Settled                             (* a settled promise is taken up *)
  | Response (url : string) (r : MovieAPI.HttpResult).

Definition find_timer (id : Z) (l : list Timer) : option Timer :=
  List.find (fun tm => timer_id tm =? id) l.

(** The callback of a timer runs when the timer is pending and its delay has
    passed. *)
Definition fire (id : Z) (w : World) : World :=
  match find_timer id (timers w) with
  | Some tm =>
      if deadline tm <=? now w
      then performSearch (timer_query tm) (with_timers (clearTimeout id (timers w)) (next_timer w) w)
      else w
  | None => w
  end.

(** The first slot that waits for [url] takes the answer; a failed request
    counts as [null] ([getFavoriteMovies] catches the error). *)
Fixpoint answer_slot (t : Z) (url : string) (r : MovieAPI.HttpResult)
    (slots : list (Json + string)) (a : MovieAPI.t)
    : option (list (Json + string) * MovieAPI.t) :=
  match slots with
  | [] => None
  | inr url' :: rest =>
      if String.eqb url url' then
        match MovieAPI.fetchData_resume t url r a with
        | (inl d, a1) => Some (inl d :: rest, a1)
        | (inr _, a1) => Some (inl JNull :: rest, a1)
        end
      else
        match answer_slot t url r rest a with
        | Some (rest', a1) => Some (inr url' :: rest', a1)
        | None => None
        end
  | inl v :: rest =>
      match answer_slot t url r rest a with
      | Some (rest', a1) => Some (inl v :: rest', a1)
      | None => None
      end
  end.

Definition respond (url : string) (r : MovieAPI.HttpResult) (w : World) : World :=
  match awaiting w with
  | Some (AwFetch url') =>
      if String.eqb url url' then
        let '(res, a) := MovieAPI.fetchData_resume (now w) url r (api w) in
        loadMovies_resume res (with_awaiting None (with_api a w))
      else w
  | Some (AwFavorites slots) =>
      match answer_slot (now w) url r slots (api w) with
      | Some (slots', a) =>
          match all_settled slots' with
          | Some movies =>
              loadMovies_resume (inl (favorites_response movies))
                (with_awaiting None (with_api a w))
          | None => with_awaiting (Some (AwFavorites slots')) (with_api a w)
          end
      | None => w
      end
  | _ => w
  end.

Definition settle (w : World) : World :=
  match awaiting w with
  | Some (AwSettled r) => loadMovies_resume r (with_awaiting None w)
  | _ => w
  end.

Definition handle (e : Event) (w : World) : World :=
  match e with
  | Click_filter category => switchCategory category w
  | Input_search text => handleSearch text w
  | Timeout id => fire id w
  | Click_loadMore => loadMoreMovies w
  | Scroll_sentinel => loadMoreMovies w
  | Click_retry => loadMovies w
  | Settled => settle w
  | Response url r => respond url r w
  end.

(** An event arrives at a time. *)
Definition step (w : World) (te : Z * Event) : World :=
  handle (snd te) (with_now (fst te) w).

Definition run (es : list (Z * Event)) (w : World) : World := fold_left step es w.

(** [new UIManager()] on a fresh page: the fields of the constructor, then
    [initializeUI], whose [loadMovies] starts the first fetch. *)
Definition UIManager_new (t : Z) (a : MovieAPI.t) (user : Json) (favs : list Json) : World :=
  loadMovies
    {| now := t;
       ui := {| currentPage := 1; currentCategory := "trending";
                currentSearchQuery := ""; isLoading := false;
                hasMorePages := true; searchTimeout := None |};
       api := a;
       dom := {| moviesGrid := []; errorHidden := true; errorMessage := "";
                 loadMoreHidden := true; spinnerHidden := true |};
       currentUser := user; favorites := favs;
       awaiting := None; timers := []; next_timer := 1; journal := [] |}.

(** *** Sequences of cache operations *)

Inductive CacheOp :=
  | Lookup (t : Z) (key : string)
  | Store (t : Z) (key : string) (d : Json).

Definition cache_op (a : MovieAPI.t) (op : CacheOp) : MovieAPI.t :=
  match op with
  | Lookup t key => snd (MovieAPI.getCache t key a)
  | Store t key d => MovieAPI.setCache t key d a
  end.

Definition stores_to (key : string) (op : CacheOp) : bool :=
  match op with
  | Lookup _ _ => false
  | Store _ key' _ => String.eqb key key'
  end.

(** *** The query descriptor

    The rule of the specification for what is fetched next, in its words: a
    search with the text and the page when the search text is not empty;
    else the bookmarked list when the category is [favorites]; else the
    endpoint of the category with the page. *)
Definition spec_descriptor (u : UIManager) : option Action :=
  if nonempty (currentSearchQuery u)
  then Some (Call_searchMovies (currentSearchQuery u) (currentPage u))
  else if String.eqb (currentCategory u) "favorites"
  then Some Call_getFavoriteMovies
  else option_map (fun method => Call_category method (currentPage u))
         (apiMethods (currentCategory u)).

(** The categories of the filter buttons and of the shortcuts Alt+1..5. *)
Definition categories : list string :=
  ["trending"; "popular"; "top_rated"; "upcoming"; "favorites"].

(** What holds of the page at every moment: [isLoading] is true exactly while
    a load is suspended, and the page number is at least 1. *)
Definition consistent (w : World) : Prop :=
  (isLoading (ui w) = true <-> is_Some (awaiting w)) /\ 1 <= currentPage (ui w).

(** The descriptors among the entries of a journal, in order. *)
Definition is_descriptor (a : Action) : bool :=
  match a with
  | Call_searchMovies _ _ | Call_category _ _ | Call_getFavoriteMovies => true
  | Call_performSearch _ | Net_fetch _ => false
  end.


Definition performed_searches (l : list Action) : list string :=
  flat_map (fun a => match a with Call_performSearch q => [q] | _ => [] end) l.

(** The movies of which every one gets its card. *)
Definition renderable (items : list Json) : bool :=
  forallb (fun movie => match createMovieCard movie with Some _ => true | None => false end) items.



(** The event [e], arriving at time [t], hands the suspended [loadMovies] of
    [w] the outcome [r]: the settled promise is taken up, or the awaited
    request is answered, or the last request of the favourites is. *)
Definition delivers (te : Z * Event) (r : Json + string) (w : World) : Prop :=
  (snd te = Settled /\ awaiting w = Some (AwSettled r))
  \/ (exists url body,
        snd te = Response url (MovieAPI.HttpOk body) /\ awaiting w = Some (AwFetch url)
        /\ r = inl body)
  \/ (exists url,
        snd te = Response url MovieAPI.HttpFail /\ awaiting w = Some (AwFetch url)
        /\ r = inr MovieAPI.fetch_error)
  \/ (exists url http slots slots' a movies,
        snd te = Response url http /\ awaiting w = Some (AwFavorites slots)
        /\ answer_slot (fst te) url http slots (api w) = Some (slots', a)
        /\ all_settled slots' = Some movies
        /\ r = inl (favorites_response movies)).

(** What a grid that was cleared shows for an array of movies. *)
Definition rendered (items : list Json) : list GridItem :=
  match items with
  | [] => [EmptyState]
  | _ => map MovieCard items
  end.

(** *** The debounce window *)

Definition is_input (e : Event) : bool :=
  match e with Input_search _ => true | _ => false end.

(** Every event of [es] arrives less than 300 ms after the keystroke before
    it, the first of them after a keystroke at [last]. *)
Fixpoint in_window (last : Z) (es : list (Z * Event)) : Prop :=
  match es with
  | [] => True
  | te :: es' =>
      fst te < last + 300
      /\ in_window (if is_input (snd te) then fst te else last) es'
  end.

(** The time and the text of the last keystroke of [es], or [(t, x)] when
    [es] has none. *)
Fixpoint last_keystroke (t : Z) (x : string) (es : list (Z * Event)) : Z * string :=
  match es with
  | [] => (t, x)
  | (t', Input_search x') :: es' => last_keystroke t' x' es'
  | _ :: es' => last_keystroke t x es'
  end.

(** [w'] has the timers, the timer handle and the search commits of [w]. *)
Definition same_timers (w w' : World) : Prop :=
  timers w' = timers w /\ next_timer w' = next_timer w /\
  searchTimeout (ui w') = searchTimeout (ui w) /\
  performed_searches (journal w') = performed_searches (journal w).

(** The state of the debounce after a keystroke at [t] with the text [x]:
    one timer is pending, it is the one [searchTimeout] names, it carries [x]
    and is due at [t + 300]; [base] are the searches committed so far. *)
Definition typing (base : list string) (t : Z) (x : string) (w : World) : Prop :=
  exists id,
    timers w = [{| timer_id := id; deadline := t + 300; timer_query := x |}]
    /\ searchTimeout (ui w) = Some id /\ 0 < id /\ id < next_timer w
    /\ performed_searches (journal w) = base.

(** *** Sample pages *)

Definition movie (id : Z) (title : string) : Json :=
  JObj [("id", JNum id); ("title", JStr title)].

Definition page_of (items : list Json) (total page : Z) : Json :=
  JObj [("results", JArr items); ("total_pages", JNum total); ("page", JNum page)].

Definition api0 : MovieAPI.t := {| MovieAPI.apiKey := Some "k"; MovieAPI.cache := ∅ |}.

Definition trending_url (page : Z) : string :=
  MovieAPI.buildURL api0 "/trending/movie/week" [("page", MovieAPI.PNum page)].

Definition trending_page : Json := page_of [movie 1 "Alien"; movie 2 "Brazil"] 3 1.

(** A page that has just been opened: the first fetch is on its way. *)
Definition page_opened : World := UIManager_new 1000 api0 JNull [].

(** The same page once the first fetch has been answered. *)
Definition page_idle : World :=
  step page_opened (1200, Response (trending_url 1) (MovieAPI.HttpOk trending_page)).



Definition search_url (q : string) (page : Z) : string :=
  MovieAPI.buildURL api0 "/search/movie"
    [("query", MovieAPI.PStr q); ("page", MovieAPI.PNum page)].


(** *** A sample store

    [JSON.parse] on the texts of the sample store: an empty object, an array
    of two numbers; the third text is not JSON. *)
Definition parse_sample (s : string) : option Json :=
  if String.eqb s "{}" then Some (JObj [])
  else if String.eqb s "[7,8]" then Some (JArr [JNum 7; JNum 8])
  else None.

Definition sample_user : Json := JObj [("id", JNum 1)].

Definition corrupt_store : gmap string string :=
  <["cinescope_user" := "{id:"]> (<["favorites_1" := "[7,8"]> ∅).

(** ** More of MovieAPI *)

(** [formatRuntime(minutes)]: the runtime is a whole number of minutes, or
    missing ([None] for [null] and [undefined]).  [Math.floor(minutes / 60)]
    rounds down and [%] takes the sign of [minutes]. *)
Definition formatRuntime (minutes : option Z) : string :=
  match minutes with
  | None => "N/A"
  | Some m =>
      if m =? 0 then "N/A"
      else
        let hours := m / 60 in
        let mins := Z.rem m 60 in
        if 0 <? hours
        then string_of_Z hours +:+ "h " +:+ string_of_Z mins +:+ "m"
        else string_of_Z mins +:+ "m"
  end.

(** The key under which [searchMovies] looks in the cache, and the URL it
    asks the network for. *)
Definition search_key (a : MovieAPI.t) (query : string) (page : Z) : string :=
  MovieAPI.getCacheKey
    (MovieAPI.buildURL a "/search/movie"
       [("query", MovieAPI.PStr (trim query)); ("page", MovieAPI.PNum page)]).

(** The same for the list method [method] of [apiMethods]. *)
Definition category_endpoint (method : string) : string :=
  if String.eqb method "getTrendingMovies" then "/trending/movie/week"
  else if String.eqb method "getPopularMovies" then "/movie/popular"
  else if String.eqb method "getTopRatedMovies" then "/movie/top_rated"
  else "/movie/upcoming".

Definition category_key (a : MovieAPI.t) (method : string) (page : Z) : string :=
  MovieAPI.getCacheKey
    (MovieAPI.buildURL a (category_endpoint method) [("page", MovieAPI.PNum page)]).

(** The characters that the serialiser of the query lets through, with the
    two it writes itself. *)
Definition url_safe (c : ascii) : bool :=
  let n := N_of_ascii c in
  ((48 <=? n) && (n <=? 57) || (65 <=? n) && (n <=? 90) || (97 <=? n) && (n <=? 122)
   || (n =? 42) || (n =? 45) || (n =? 46) || (n =? 95) || (n =? 43) || (n =? 37))%N.

Fixpoint all_chars (P : ascii -> bool) (s : string) : bool :=
  match s with
  | EmptyString => true
  | String c s' => P c && all_chars P s'
  end.

(** The operation reads or writes the entry of [key]. *)
Definition touches (key : string) (op : CacheOp) : bool :=
  match op with
  | Lookup _ key' => String.eqb key key'
  | Store _ key' _ => String.eqb key key'
  end.

(** All 256 characters. *)
Definition all_ascii : list ascii := map ascii_of_nat (seq 0 256).

(** ** FavoritesManager and the session

    The favourites are a [Set]: a list without repetition, in the order of
    insertion.  [Set.has] and [Set.delete] compare with [same_value], which
    is right for numbers and strings, the identifiers the movies carry.
    [JSON.stringify] is the browser's and a parameter, as [JSON.parse] is.
    The notifications and the heart buttons are not modelled. *)

Record Account := {
  authManager : option Json;            (* currentUser, once window.authManager exists *)
  favoriteSet : list Json;              (* window.favoritesManager.favorites *)
  localStorage : gmap string string
}.

(** [window.authManager?.isAuthenticated()] *)
Definition isAuthenticated (auth : option Json) : bool :=
  match auth with
  | Some currentUser => negb (is_null currentUser)
  | None => false
  end.

(** [window.authManager.getCurrentUser()?.id] *)
Definition userId (auth : option Json) : option Json :=
  match auth with
  | Some currentUser => get_field "id" currentUser
  | None => None
  end.

Definition favorites_key (auth : option Json) : string :=
  "favorites_" +:+ template (userId auth).

Definition isFavorite (movieId : Json) (acc : Account) : bool :=
  existsb (same_value movieId) (favoriteSet acc).

Definition getFavorites (acc : Account) : list Json := favoriteSet acc.

(** [Set.delete] *)
Definition set_delete (x : Json) (l : list Json) : list Json :=
  List.filter (fun y => negb (same_value x y)) l.

Definition is_primitive (v : Json) : bool :=
  match v with
  | JArr _ | JObj _ => false
  | _ => true
  end.

(** No two elements of the list are the same value. *)
Fixpoint distinct (l : list Json) : bool :=
  match l with
  | [] => true
  | x :: l' => negb (existsb (same_value x) l') && distinct l'
  end.

Section Favorites.

Variable JSON_parse : string -> option Json.
Variable JSON_stringify : Json -> string.

Definition saveFavorites (acc : Account) : Account :=
  if isAuthenticated (authManager acc) then
    {| authManager := authManager acc; favoriteSet := favoriteSet acc;
       localStorage := <[favorites_key (authManager acc)
                           := JSON_stringify (JArr (favoriteSet acc))]> (localStorage acc) |}
  else acc.

(** The value returned and the account after the call. *)
Definition addFavorite (movieId : Json) (acc : Account) : bool * Account :=
  if isAuthenticated (authManager acc) then
    (true,
     saveFavorites {| authManager := authManager acc;
                      favoriteSet := add_to_set (favoriteSet acc) movieId;
                      localStorage := localStorage acc |})
  else (false, acc).

Definition removeFavorite (movieId : Json) (acc : Account) : Account :=
  saveFavorites {| authManager := authManager acc;
                   favoriteSet := set_delete movieId (favoriteSet acc);
                   localStorage := localStorage acc |}.

Definition toggleFavorite (movieId : Json) (acc : Account) : Account :=
  if isFavorite movieId acc then removeFavorite movieId acc
  else snd (addFavorite movieId acc).

Definition clearFavorites (acc : Account) : Account :=
  {| authManager := authManager acc; favoriteSet := [];
     localStorage :=
       if truthy_opt (userId (authManager acc))
       then delete (favorites_key (authManager acc)) (localStorage acc)
       else localStorage acc |}.

(** [AuthManager.logout], with [window.favoritesManager] in place. *)
Definition logout (acc : Account) : Account :=
  clearFavorites {| authManager := Some JNull; favoriteSet := favoriteSet acc;
                    localStorage := delete "cinescope_user" (localStorage acc) |}.

(** [loadFavorites] on an account. *)
Definition reloadFavorites (acc : Account) : Account :=
  let '(favs, store) :=
    loadFavorites JSON_parse (authManager acc) (favoriteSet acc) (localStorage acc) in
  {| authManager := authManager acc; favoriteSet := favs; localStorage := store |}.

(** [new FavoritesManager()]: the empty set, then [loadFavorites]. *)
Definition FavoritesManager_new (auth : option Json) (store : gmap string string) : Account :=
  reloadFavorites {| authManager := auth; favoriteSet := []; localStorage := store |}.

End Favorites.

(** [JSON.stringify] on the array of the sample store. *)
Definition stringify_sample (v : Json) : string :=
  match v with
  | JArr [JNum 7; JNum 8] => "[7,8]"
  | _ => "{}"
  end.

Definition member_account : Account :=
  {| authManager := Some sample_user; favoriteSet := [JNum 7]; localStorage := ∅ |}.

(** ** More invariants of the page *)

(** At most one timer of the debounce is pending, and it is the one that
    [searchTimeout] names. *)
Definition one_timer (w : World) : Prop :=
  0 < next_timer w /\
  (timers w = [] \/
   exists tm, timers w = [tm] /\ searchTimeout (ui w) = Some (timer_id tm) /\ 0 < timer_id tm).

(** No error is on display while a load is suspended. *)
Definition no_error_while_loading (w : World) : Prop :=
  isLoading (ui w) = true -> errorHidden (dom w) = true.

(** * Facts *)

(** ** Strings *)

Lemma is_ws2_lead c1 c2 : is_ws2 c1 c2 = true -> N_of_ascii c1 = 194%N.
Proof.
  unfold is_ws2. intros [H _]%andb_prop. apply N.eqb_eq, H.
Qed.

Lemma is_ws3_lead c1 c2 c3 :
  is_ws3 c1 c2 c3 = true ->
  N_of_ascii c1 = 225%N \/ N_of_ascii c1 = 226%N \/
  N_of_ascii c1 = 227%N \/ N_of_ascii c1 = 239%N.
Proof.
  unfold is_ws3. cbv zeta. intros H.
  repeat (apply orb_prop in H as [H|H]);
    repeat (apply andb_prop in H as [H ?]); apply N.eqb_eq in H; auto.
Qed.

(** No code point of white space begins another one. *)
Lemma is_ws2_not_ws1 c1 c2 : is_ws2 c1 c2 = true -> is_ws1 c1 = false.
Proof.
  intros H%is_ws2_lead. unfold is_ws1. rewrite H. reflexivity.
Qed.

Lemma is_ws3_not_ws1 c1 c2 c3 : is_ws3 c1 c2 c3 = true -> is_ws1 c1 = false.
Proof.
  intros H%is_ws3_lead. unfold is_ws1.
  destruct H as [H|[H|[H|H]]]; rewrite H; reflexivity.
Qed.

Lemma is_ws3_not_ws2 c1 c2 c3 : is_ws3 c1 c2 c3 = true -> is_ws2 c1 c2 = false.
Proof.
  intros H%is_ws3_lead. unfold is_ws2.
  destruct H as [H|[H|[H|H]]]; rewrite H; reflexivity.
Qed.

Lemma trimStart_blank_le n : forall s,
  (String.length s <= n)%nat -> is_blank s = true -> trimStart s = "".
Proof.
  induction n as [|n IH]; intros s Hn.
  - destruct s; [reflexivity | simpl in Hn; lia].
  - destruct s as [|c1 s1]; [reflexivity|]. simpl in Hn.
    cbn [is_blank trimStart]. destruct (is_ws1 c1); [apply IH; lia|].
    destruct s1 as [|c2 s2]; [discriminate|]. simpl in Hn.
    destruct (is_ws2 c1 c2); [apply IH; lia|].
    destruct s2 as [|c3 s3]; [discriminate|]. simpl in Hn.
    destruct (is_ws3 c1 c2 c3); [apply IH; lia | discriminate].
Qed.

Lemma trimStart_blank s : is_blank s = true -> trimStart s = "".
Proof. apply (trimStart_blank_le (String.length s)). lia. Qed.

(** When [trimEnd] leaves nothing, the string is a sequence of code points of
    white space. *)
Lemma trimEnd_empty_blank_le n : forall s,
  (String.length s <= n)%nat -> trimEnd s = "" -> is_blank s = true.
Proof.
  induction n as [|n IH]; intros s Hn.
  - destruct s; [reflexivity | simpl in Hn; lia].
  - destruct s as [|c1 s1]; [reflexivity|]. simpl in Hn.
    cbn [trimEnd]. cbv zeta.
    destruct (is_white (String c1 (trimEnd s1))) eqn:W; [intros _ | discriminate].
    destruct (trimEnd s1) as [|d2 t2] eqn:E1.
    { cbn [is_white] in W. cbn [is_blank]. rewrite W. apply IH; [lia | exact E1]. }
    destruct s1 as [|c2 s2]; [discriminate E1|]. simpl in Hn.
    cbn [trimEnd] in E1. cbv zeta in E1.
    destruct (is_white (String c2 (trimEnd s2))); [discriminate E1|].
    injection E1 as -> E2.
    destruct t2 as [|d3 t3].
    { cbn [is_white] in W. cbn [is_blank].
      rewrite (is_ws2_not_ws1 _ _ W), W. apply IH; [lia | exact E2]. }
    destruct s2 as [|c3 s3]; [discriminate E2|]. simpl in Hn.
    cbn [trimEnd] in E2. cbv zeta in E2.
    destruct (is_white (String c3 (trimEnd s3))); [discriminate E2|].
    injection E2 as -> E3.
    destruct t3 as [|d4 t4]; [|discriminate W].
    cbn [is_white] in W. cbn [is_blank].
    rewrite (is_ws3_not_ws1 _ _ _ W), (is_ws3_not_ws2 _ _ _ W), W.
    apply IH; [lia | exact E3].
Qed.

Lemma trimEnd_empty_blank s : trimEnd s = "" -> is_blank s = true.
Proof. apply (trimEnd_empty_blank_le (String.length s)). lia. Qed.

Lemma trimStart_blank_inv_le n : forall s,
  (String.length s <= n)%nat -> is_blank (trimStart s) = true -> is_blank s = true.
Proof.
  induction n as [|n IH]; intros s Hn.
  - destruct s; [reflexivity | simpl in Hn; lia].
  - destruct s as [|c1 s1]; [reflexivity|]. simpl in Hn.
    cbn [trimStart]. destruct (is_ws1 c1) eqn:W1.
    { intros H. cbn [is_blank]. rewrite W1. apply IH; [lia | exact H]. }
    destruct s1 as [|c2 s2]; [auto|]. simpl in Hn.
    destruct (is_ws2 c1 c2) eqn:W2.
    { intros H. cbn [is_blank]. rewrite W1, W2. apply IH; [lia | exact H]. }
    destruct s2 as [|c3 s3]; [auto|]. simpl in Hn.
    destruct (is_ws3 c1 c2 c3) eqn:W3; [|auto].
    intros H. cbn [is_blank]. rewrite W1, W2, W3. apply IH; [lia | exact H].
Qed.

Lemma trimStart_blank_inv s : is_blank (trimStart s) = true -> is_blank s = true.
Proof. apply (trimStart_blank_inv_le (String.length s)). lia. Qed.

Lemma trim_blank s : trim s = "" <-> is_blank s = true.
Proof.
  unfold trim. split.
  - intros H. apply trimStart_blank_inv, trimEnd_empty_blank, H.
  - intros H. rewrite (trimStart_blank s H). reflexivity.
Qed.

(** ** The cache *)

Lemma getCache_absent t k a :
  MovieAPI.cache a !! k = None -> MovieAPI.getCache t k a = (JNull, a).
Proof. intros H. unfold MovieAPI.getCache. rewrite H. reflexivity. Qed.

Lemma getCache_keeps_absent t k k' a :
  MovieAPI.cache a !! k = None ->
  MovieAPI.cache (snd (MovieAPI.getCache t k' a)) !! k = None.
Proof.
  intros H. unfold MovieAPI.getCache.
  destruct (MovieAPI.cache a !! k') as [e|]; simpl; [|exact H].
  destruct (MovieAPI.cacheExpiry <? t - MovieAPI.timestamp e); simpl; [|exact H].
  destruct (decide (k' = k)) as [->|Hne].
  - apply lookup_delete_eq.
  - rewrite lookup_delete_ne by exact Hne. exact H.
Qed.

Lemma cache_ops_keep_absent k ops : forall a,
  forallb (fun op => negb (stores_to k op)) ops = true ->
  MovieAPI.cache a !! k = None ->
  MovieAPI.cache (fold_left cache_op ops a) !! k = None.
Proof.
  induction ops as [|op ops IH]; intros a Hops Ha; simpl in *; [exact Ha|].
  apply andb_prop in Hops as [Hop Hops].
  apply IH; [exact Hops|].
  destruct op as [t k'|t k' d]; simpl in *.
  - apply getCache_keeps_absent, Ha.
  - apply negb_true_iff, String.eqb_neq in Hop.
    rewrite lookup_insert_ne by congruence. exact Ha.
Qed.

Lemma getCache_setCache t t' k v a :
  MovieAPI.getCache t' k (MovieAPI.setCache t k v a) =
    if t' - t <=? MovieAPI.cacheExpiry
    then (v, MovieAPI.setCache t k v a)
    else (JNull, MovieAPI.with_cache (delete k (MovieAPI.cache a)) a).
Proof.
  unfold MovieAPI.getCache, MovieAPI.setCache. simpl.
  rewrite lookup_insert_eq. simpl.
  destruct (Z.ltb_spec MovieAPI.cacheExpiry (t' - t)) as [Hlt|Hge];
    destruct (Z.leb_spec (t' - t) MovieAPI.cacheExpiry) as [Hle|Hgt]; try lia.
  - unfold MovieAPI.with_cache. simpl. rewrite delete_insert_eq. reflexivity.
  - reflexivity.
Qed.

(** C2. A lookup of [k] at time [t'], after [v] was stored under [k] at time
    [t], hands back [v] and leaves the cache as it is when [t' - t] is at
    most the time to live of five minutes; when [t' - t] is more, it hands
    back [null] and removes the entry, and from then on, whatever lookups and
    whatever stores to other keys happen, a lookup of [k] hands back [null]
    and changes nothing, so the removal happens once. *)
Theorem C2_lookup_respects_ttl (k : string) (v : Json) (t t' : Z) (a : MovieAPI.t) :
  let stored := MovieAPI.setCache t k v a in
  let looked := MovieAPI.getCache t' k stored in
  MovieAPI.cacheExpiry = 300000 /\
  (t' - t <= MovieAPI.cacheExpiry -> looked = (v, stored)) /\
  (v <> JNull -> (fst looked = v <-> t' - t <= MovieAPI.cacheExpiry)) /\
  (t' - t > MovieAPI.cacheExpiry ->
     fst looked = JNull /\
     MovieAPI.cache (snd looked) = delete k (MovieAPI.cache stored) /\
     MovieAPI.cache (snd looked) !! k = None /\
     forall (ops : list CacheOp) (t'' : Z),
       forallb (fun op => negb (stores_to k op)) ops = true ->
       let later := fold_left cache_op ops (snd looked) in
       MovieAPI.getCache t'' k later = (JNull, later)).
Proof.
  intros stored looked. subst stored looked. rewrite getCache_setCache.
  split; [reflexivity|].
  destruct (Z.leb_spec (t' - t) MovieAPI.cacheExpiry) as [Hle|Hgt].
  - split; [reflexivity|]. split; [intros _; simpl; tauto|]. lia.
  - split; [lia|]. split.
    { intros Hv. simpl. split; [congruence | lia]. }
    intros _. simpl. split; [reflexivity|]. split.
    { rewrite delete_insert_eq. reflexivity. }
    split; [apply lookup_delete_eq|].
    intros ops t'' Hops. apply getCache_absent, cache_ops_keep_absent; [exact Hops|].
    simpl. apply lookup_delete_eq.
Qed.

Lemma C2_lookup_respects_ttl_witness :
  MovieAPI.getCache 300000 "q=batman&page=1"
      (MovieAPI.setCache 0 "q=batman&page=1" (JNum 3)
         {| MovieAPI.apiKey := None; MovieAPI.cache := ∅ |})
    = (JNum 3, MovieAPI.setCache 0 "q=batman&page=1" (JNum 3)
                 {| MovieAPI.apiKey := None; MovieAPI.cache := ∅ |})
  /\ fst (MovieAPI.getCache 300001 "q=batman&page=1"
            (MovieAPI.setCache 0 "q=batman&page=1" (JNum 3)
               {| MovieAPI.apiKey := None; MovieAPI.cache := ∅ |})) = JNull.
Proof.
  split.
  - apply (C2_lookup_respects_ttl "q=batman&page=1" (JNum 3) 0 300000
             {| MovieAPI.apiKey := None; MovieAPI.cache := ∅ |}).
    vm_compute. discriminate.
  - apply (C2_lookup_respects_ttl "q=batman&page=1" (JNum 3) 0 300001
             {| MovieAPI.apiKey := None; MovieAPI.cache := ∅ |}).
    vm_compute. reflexivity.
Defined.

(** C3. A lookup of [k] at the instant of a store of [v] under [k] hands back
    [v] and changes nothing; the store replaces whatever entry [k] had by
    [v] with the time of the store. *)
Theorem C3_store_then_lookup (k : string) (v : Json) (t : Z) (a : MovieAPI.t) :
  MovieAPI.getCache t k (MovieAPI.setCache t k v a) = (v, MovieAPI.setCache t k v a) /\
  MovieAPI.cache (MovieAPI.setCache t k v a) !! k
    = Some {| MovieAPI.data := v; MovieAPI.timestamp := t |} /\
  (forall (t0 : Z) (v0 : Json),
     MovieAPI.setCache t k v (MovieAPI.setCache t0 k v0 a) = MovieAPI.setCache t k v a).
Proof.
  split; [|split].
  - rewrite getCache_setCache. replace (t - t) with 0 by lia. reflexivity.
  - simpl. apply lookup_insert_eq.
  - intros t0 v0. unfold MovieAPI.setCache, MovieAPI.with_cache. simpl.
    rewrite insert_insert_eq. reflexivity.
Qed.

(** C10. For a query that is empty or made of white space only (the white
    space that [trim] removes, of the ASCII range or not), and for every
    page, [searchMovies] returns at once the object
    [{results: [], total_pages: 0, page: 1}]: it waits for no request, and the
    API object, with its cache, is the one it was called on, whatever that
    cache holds. *)
Theorem C10_blank_search (query : string) (page t : Z) (a : MovieAPI.t) :
  is_blank query = true ->
  MovieAPI.searchMovies t query page a = (MovieAPI.Returned MovieAPI.no_results, a) /\
  MovieAPI.no_results
    = JObj [("results", JArr []); ("total_pages", JNum 0); ("page", JNum 1)].
Proof.
  intros Hb. apply trim_blank in Hb. unfold MovieAPI.searchMovies.
  rewrite Hb. simpl. split; reflexivity.
Qed.

Lemma C10_blank_search_witness :
  is_blank (" " +:+ no_break_space) = true /\
  MovieAPI.searchMovies 0 (" " +:+ no_break_space) 4
    {| MovieAPI.apiKey := None; MovieAPI.cache := ∅ |}
    = (MovieAPI.Returned MovieAPI.no_results,
       {| MovieAPI.apiKey := None; MovieAPI.cache := ∅ |}).
Proof.
  split; [reflexivity|].
  apply (C10_blank_search (" " +:+ no_break_space) 4 0
           {| MovieAPI.apiKey := None; MovieAPI.cache := ∅ |}).
  reflexivity.
Defined.

(** ** What loadMovies leaves alone *)

Lemma ui_record_all urls : forall w,
  ui (fold_left (fun w url => record (Net_fetch url) w) urls w) = ui w.
Proof. induction urls as [|u urls IH]; intros w; simpl; [reflexivity|]. rewrite IH. reflexivity. Qed.

Lemma dom_record_all urls : forall w,
  dom (fold_left (fun w url => record (Net_fetch url) w) urls w) = dom w.
Proof. induction urls as [|u urls IH]; intros w; simpl; [reflexivity|]. rewrite IH. reflexivity. Qed.

Lemma journal_record_all urls : forall w,
  journal (fold_left (fun w url => record (Net_fetch url) w) urls w)
    = journal w ++ map Net_fetch urls.
Proof.
  induction urls as [|u urls IH]; intros w; simpl.
  - rewrite app_nil_r. reflexivity.
  - rewrite IH. simpl. rewrite <- app_assoc. reflexivity.
Qed.

Lemma ui_setLoadingState b w : ui (setLoadingState b w) = set_isLoading b (ui w).
Proof. unfold setLoadingState. destruct (b && _); reflexivity. Qed.

Lemma ui_suspend st w : ui (suspend st w) = ui w.
Proof. destruct st; reflexivity. Qed.

Lemma ui_getFavoriteMovies w : ui (getFavoriteMovies w) = ui w.
Proof.
  unfold getFavoriteMovies. destruct (is_null (currentUser w)); [reflexivity|].
  destruct (favorites w) as [|f fs]; [reflexivity|].
  destruct (favorite_requests _ _ _) as [slots a].
  destruct (all_settled slots); simpl; rewrite ui_record_all; reflexivity.
Qed.

(** [loadMovies], up to its [await], writes no field of the controller but
    [isLoading]. *)
Lemma ui_loadMovies w : exists b, ui (loadMovies w) = set_isLoading b (ui w).
Proof.
  unfold loadMovies. destruct (isLoading (ui w)) eqn:El.
  - exists true. destruct (ui w); simpl in *; subst; reflexivity.
  - cbv zeta. set (w1 := hideError (setLoadingState true w)).
    assert (Hu : ui w1 = set_isLoading true (ui w)).
    { subst w1. simpl. apply ui_setLoadingState. }
    destruct (nonempty (currentSearchQuery (ui w1))).
    + destruct (MovieAPI.searchMovies _ _ _ _) as [st a]. rewrite ui_suspend.
      exists true. exact Hu.
    + destruct (String.eqb (currentCategory (ui w1)) "favorites").
      * rewrite ui_getFavoriteMovies. exists true. exact Hu.
      * destruct (apiMethods (currentCategory (ui w1))) as [m|].
        -- destruct (call_method _ _ _ _) as [st a]. rewrite ui_suspend.
           exists true. exact Hu.
        -- exists false. rewrite ui_setLoadingState.
           change (ui (showError no_results_found w1)) with (ui w1).
           rewrite Hu. reflexivity.
Qed.

(** C4. [switchCategory c], when [c] is not the current category or a search
    is active, and [performSearch q], whatever the state before, leave the
    page at 1 and [hasMorePages] at true; [switchCategory] also sets the
    category to [c] and the search text to the empty string.  From
    [{category: trending, page: 1}], [switchCategory("popular")] gives
    [{category: popular, page: 1, hasMorePages: true, searchQuery: ""}]. *)
Theorem C4_reset_events (w : World) (c q : string) :
  (c <> currentCategory (ui w) \/ currentSearchQuery (ui w) <> "" ->
     let u := ui (switchCategory c w) in
     currentPage u = 1 /\ hasMorePages u = true /\
     currentCategory u = c /\ currentSearchQuery u = "") /\
  (let u := ui (performSearch q w) in
     currentPage u = 1 /\ hasMorePages u = true /\ currentSearchQuery u = trim q) /\
  (currentCategory (ui w) = "trending" -> currentPage (ui w) = 1 ->
     let u := ui (switchCategory "popular" w) in
     currentCategory u = "popular" /\ currentPage u = 1 /\
     hasMorePages u = true /\ currentSearchQuery u = "").
Proof.
  assert (Hsw : forall c', c' <> currentCategory (ui w) \/ currentSearchQuery (ui w) <> "" ->
     let u := ui (switchCategory c' w) in
     currentPage u = 1 /\ hasMorePages u = true /\
     currentCategory u = c' /\ currentSearchQuery u = "").
  { intros c' Hpre u. subst u. unfold switchCategory.
    assert (Hg : String.eqb c' (currentCategory (ui w))
                 && negb (nonempty (currentSearchQuery (ui w))) = false).
    { destruct Hpre as [Hc|Hs].
      - apply String.eqb_neq in Hc. rewrite Hc. reflexivity.
      - destruct (currentSearchQuery (ui w)); [congruence|]. simpl. apply andb_false_r. }
    rewrite Hg.
    match goal with |- context [loadMovies ?x] => destruct (ui_loadMovies x) as [b Hb] end.
    rewrite Hb. simpl. auto. }
  split; [apply Hsw|]. split.
  - intros u. subst u. unfold performSearch.
    match goal with |- context [loadMovies ?x] => destruct (ui_loadMovies x) as [b Hb] end.
    rewrite Hb. simpl. auto.
  - intros Hc Hp u. subst u.
    destruct (Hsw "popular") as (H1 & H2 & H3 & H4); [left; rewrite Hc; discriminate|].
    auto.
Qed.

Example page_opened_state :
  isLoading (ui page_opened) = true /\
  awaiting page_opened = Some (AwFetch (trending_url 1)) /\
  journal page_opened = [Call_category "getTrendingMovies" 1; Net_fetch (trending_url 1)] /\
  trending_url 1 = "https://api.themoviedb.org/3/trending/movie/week?api_key=k&page=1".
Proof. vm_compute. repeat split; reflexivity. Qed.

Example page_idle_state :
  ui page_idle = {| currentPage := 1; currentCategory := "trending";
                    currentSearchQuery := ""; isLoading := false;
                    hasMorePages := true; searchTimeout := None |} /\
  awaiting page_idle = None /\
  moviesGrid (dom page_idle) = [MovieCard (movie 1 "Alien"); MovieCard (movie 2 "Brazil")].
Proof. vm_compute. repeat split; reflexivity. Qed.

Lemma C4_reset_events_witness :
  (let u := ui (switchCategory "favorites" page_opened) in
   currentPage u = 1 /\ hasMorePages u = true /\
   currentCategory u = "favorites" /\ currentSearchQuery u = "") /\
  (let u := ui (switchCategory "popular" page_idle) in
   currentCategory u = "popular" /\ currentPage u = 1 /\
   hasMorePages u = true /\ currentSearchQuery u = "").
Proof.
  split.
  - apply (C4_reset_events page_opened "favorites" "dune"). left. discriminate.
  - apply (C4_reset_events page_idle "popular" "dune"); reflexivity.
Defined.

(** ** What loadMovies issues *)

Lemma suspend_spec st w :
  ui (suspend st w) = ui w /\ dom (suspend st w) = dom w /\
  is_Some (awaiting (suspend st w)) /\
  exists urls, journal (suspend st w) = journal w ++ map Net_fetch urls.
Proof.
  destruct st as [v|url]; simpl; repeat split; eauto.
  - exists []. simpl. rewrite app_nil_r. reflexivity.
  - exists [url]. reflexivity.
Qed.

Lemma getFavoriteMovies_spec w :
  ui (getFavoriteMovies w) = ui w /\ dom (getFavoriteMovies w) = dom w /\
  is_Some (awaiting (getFavoriteMovies w)) /\
  exists urls, journal (getFavoriteMovies w) = journal w ++ map Net_fetch urls.
Proof.
  unfold getFavoriteMovies.
  assert (Hnil : exists urls : list string, journal w = journal w ++ map Net_fetch urls).
  { exists []. simpl. rewrite app_nil_r. reflexivity. }
  destruct (is_null (currentUser w)); [simpl; eauto 6|].
  destruct (favorites w) as [|f fs]; [simpl; eauto 6|].
  destruct (favorite_requests _ _ _) as [slots a].
  destruct (all_settled slots); simpl;
    rewrite ui_record_all, dom_record_all, journal_record_all; simpl; eauto 6.
Qed.

Lemma loadMovies_issues w d :
  isLoading (ui w) = false ->
  spec_descriptor (ui w) = Some d ->
  isLoading (ui (loadMovies w)) = true /\
  is_Some (awaiting (loadMovies w)) /\
  exists urls, journal (loadMovies w) = journal w ++ d :: map Net_fetch urls.
Proof.
  intros El Hd. unfold loadMovies. rewrite El. cbv zeta.
  set (w1 := hideError (setLoadingState true w)).
  assert (Hu : ui w1 = set_isLoading true (ui w)).
  { subst w1. simpl. apply ui_setLoadingState. }
  assert (Hj : journal w1 = journal w).
  { subst w1. unfold setLoadingState. destruct (true && _); reflexivity. }
  clearbody w1.
  unfold spec_descriptor in Hd. rewrite Hu. simpl.
  destruct (nonempty (currentSearchQuery (ui w))).
  - injection Hd as <-.
    destruct (MovieAPI.searchMovies _ _ _ _) as [st a].
    match goal with |- context [suspend st ?x] =>
      destruct (suspend_spec st x) as (H1 & _ & H3 & urls & H4) end.
    rewrite H1, H4. simpl. rewrite Hu, Hj. simpl.
    split; [reflexivity|]. split; [exact H3|]. exists urls.
    rewrite <- app_assoc. reflexivity.
  - destruct (String.eqb (currentCategory (ui w)) "favorites").
    + injection Hd as <-.
      match goal with |- context [getFavoriteMovies ?x] =>
        destruct (getFavoriteMovies_spec x) as (H1 & _ & H3 & urls & H4) end.
      rewrite H1, H4. simpl. rewrite Hu, Hj. simpl.
      split; [reflexivity|]. split; [exact H3|]. exists urls.
      rewrite <- app_assoc. reflexivity.
    + destruct (apiMethods (currentCategory (ui w))) as [m|]; [|discriminate].
      injection Hd as <-.
      destruct (call_method _ _ _ _) as [st a].
      match goal with |- context [suspend st ?x] =>
        destruct (suspend_spec st x) as (H1 & _ & H3 & urls & H4) end.
      rewrite H1, H4. simpl. rewrite Hu, Hj. simpl.
      split; [reflexivity|]. split; [exact H3|]. exists urls.
      rewrite <- app_assoc. reflexivity.
Qed.

(** Past the first page, starting a load leaves the grid as it is. *)
Lemma loadMovies_grid w :
  currentPage (ui w) <> 1 -> moviesGrid (dom (loadMovies w)) = moviesGrid (dom w).
Proof.
  intros Hp. apply Z.eqb_neq in Hp.
  unfold loadMovies. destruct (isLoading (ui w)); [reflexivity|]. cbv zeta.
  set (w1 := hideError (setLoadingState true w)).
  assert (Hu : ui w1 = set_isLoading true (ui w)).
  { subst w1. simpl. apply ui_setLoadingState. }
  assert (Hg : moviesGrid (dom w1) = moviesGrid (dom w)).
  { subst w1. unfold setLoadingState. simpl. rewrite Hp. reflexivity. }
  clearbody w1.
  destruct (nonempty (currentSearchQuery (ui w1))).
  - destruct (MovieAPI.searchMovies _ _ _ _) as [st a].
    match goal with |- context [suspend st ?x] =>
      destruct (suspend_spec st x) as (_ & H2 & _) end.
    rewrite H2. exact Hg.
  - destruct (String.eqb (currentCategory (ui w1)) "favorites").
    + match goal with |- context [getFavoriteMovies ?x] =>
        destruct (getFavoriteMovies_spec x) as (_ & H2 & _) end.
      rewrite H2. exact Hg.
    + destruct (apiMethods (currentCategory (ui w1))) as [m|].
      * destruct (call_method _ _ _ _) as [st a].
        match goal with |- context [suspend st ?x] =>
          destruct (suspend_spec st x) as (_ & H2 & _) end.
        rewrite H2. exact Hg.
      * unfold setLoadingState. simpl. exact Hg.
Qed.

Lemma append_cards_renderable items : forall grid,
  renderable items = true ->
  append_cards items grid = (grid ++ map MovieCard items, false).
Proof.
  induction items as [|m items IH]; intros grid Hr; simpl in *.
  - rewrite app_nil_r. reflexivity.
  - apply andb_prop in Hr as [Hm Hr].
    assert (Hc : createMovieCard m = Some (MovieCard m)).
    { unfold createMovieCard in *. destruct m; try discriminate;
        repeat (match goal with |- context [match ?x with _ => _ end] => destruct x end);
        try reflexivity; try discriminate. }
    rewrite Hc, IH by exact Hr. rewrite <- app_assoc. reflexivity.
Qed.

(** A successful answer past the first page: the cards are appended. *)
Lemma loadMovies_resume_appends response items w :
  currentPage (ui w) <> 1 ->
  results_of response = Some (JArr items) ->
  renderable items = true ->
  moviesGrid (dom (loadMovies_resume (inl response) w))
    = moviesGrid (dom w) ++ map MovieCard items /\
  ui (loadMovies_resume (inl response) w)
    = set_isLoading false
        (set_hasMorePages (lt_js (currentPage (ui w)) (get_field "total_pages" response)) (ui w)).
Proof.
  intros Hp Hres Hr. apply Z.eqb_neq in Hp.
  unfold loadMovies_resume. rewrite Hres. unfold renderMovies. rewrite Hp.
  rewrite andb_false_r. rewrite append_cards_renderable by exact Hr.
  unfold setLoadingState. simpl. split; reflexivity.
Qed.

Lemma delivers_step te r w :
  delivers te r w ->
  exists w0, step w te = loadMovies_resume r w0 /\
             ui w0 = ui w /\ dom w0 = dom w /\ journal w0 = journal w /\
             awaiting w0 = None /\ timers w0 = timers w.
Proof.
  destruct te as [t e]. unfold step.
  intros [(He & Ha)|[(url & body & He & Ha & ->)|[(url & He & Ha & ->)
          |(url & http & slots & slots' & a & movies & He & Ha & Hs & Hall & ->)]]];
    simpl in *; subst e; simpl; unfold settle, respond; simpl; rewrite Ha.
  - eexists; split; [reflexivity|]. simpl. auto.
  - rewrite String.eqb_refl. simpl. eexists; split; [reflexivity|]. simpl. auto.
  - rewrite String.eqb_refl. simpl. eexists; split; [reflexivity|]. simpl. auto.
  - rewrite Hs, Hall. eexists; split; [reflexivity|]. simpl. auto.
Qed.

Lemma loadMoreMovies_fields w :
  isLoading (ui w) = false -> hasMorePages (ui w) = true ->
  loadMoreMovies w
    = loadMovies (with_ui (set_currentPage (currentPage (ui w) + 1) (ui w)) w) /\
  currentPage (ui (loadMoreMovies w)) = currentPage (ui w) + 1 /\
  currentCategory (ui (loadMoreMovies w)) = currentCategory (ui w) /\
  currentSearchQuery (ui (loadMoreMovies w)) = currentSearchQuery (ui w) /\
  hasMorePages (ui (loadMoreMovies w)) = true.
Proof.
  intros El Hm. unfold loadMoreMovies. rewrite El, Hm. simpl.
  split; [reflexivity|].
  match goal with |- context [loadMovies ?x] => destruct (ui_loadMovies x) as [b Hb] end.
  rewrite Hb. simpl. auto.
Qed.

(** A state with a search text, or with one of the five categories, has a
    descriptor. *)
Lemma spec_descriptor_known u :
  currentSearchQuery u <> "" \/ In (currentCategory u) categories ->
  exists d, spec_descriptor u = Some d.
Proof.
  intros H. unfold spec_descriptor.
  destruct (currentSearchQuery u) as [|c q] eqn:Eq; simpl; [|eauto].
  destruct H as [H|H]; [congruence|].
  simpl in H. destruct H as [<-|[<-|[<-|[<-|[<-|[]]]]]]; simpl; eauto.
Qed.

(** C5. While [isLoading] is true or [hasMorePages] is false, [loadMoreMovies]
    changes nothing: the controller, the display, the journal of calls and
    requests and the suspended load are those of before.  Otherwise the page
    goes up by one and the other fields of the query stay; the state has a
    query descriptor when it has a search text or one of the five
    categories, and then the load starts with that descriptor for the new
    page; when its answer comes with movies, their cards are added after the
    cards on display. *)
Theorem C5_loadMore (w : World) :
  (isLoading (ui w) = true \/ hasMorePages (ui w) = false -> loadMoreMovies w = w) /\
  (isLoading (ui w) = false -> hasMorePages (ui w) = true ->
     let w' := loadMoreMovies w in
     currentPage (ui w') = currentPage (ui w) + 1 /\
     currentCategory (ui w') = currentCategory (ui w) /\
     currentSearchQuery (ui w') = currentSearchQuery (ui w) /\
     hasMorePages (ui w') = true /\
     (currentSearchQuery (ui w) <> "" \/ In (currentCategory (ui w)) categories ->
      exists d, spec_descriptor (set_currentPage (currentPage (ui w) + 1) (ui w)) = Some d) /\
     forall d : Action,
       spec_descriptor (set_currentPage (currentPage (ui w) + 1) (ui w)) = Some d ->
       isLoading (ui w') = true /\ is_Some (awaiting w') /\
       (exists urls, journal w' = journal w ++ d :: map Net_fetch urls) /\
       (1 <= currentPage (ui w) ->
        forall (te : Z * Event) (response : Json) (items : list Json),
          delivers te (inl response) w' ->
          results_of response = Some (JArr items) ->
          renderable items = true ->
          moviesGrid (dom (step w' te)) = moviesGrid (dom w) ++ map MovieCard items)).
Proof.
  split.
  - intros H. unfold loadMoreMovies.
    destruct H as [H|H]; rewrite H; [reflexivity|].
    simpl. rewrite orb_true_r. reflexivity.
  - intros El Hm w'. subst w'.
    destruct (loadMoreMovies_fields w El Hm) as (-> & F1 & F2 & F3 & F4).
    set (w1 := with_ui (set_currentPage (currentPage (ui w) + 1) (ui w)) w) in *.
    split; [exact F1|]. split; [exact F2|]. split; [exact F3|]. split; [exact F4|].
    split; [intros Hk; apply spec_descriptor_known; exact Hk|].
    intros d Hd.
    destruct (loadMovies_issues w1 d El Hd) as (H1 & H2 & H3).
    split; [exact H1|]. split; [exact H2|]. split; [exact H3|].
    intros Hp te response items Hdel Hres Hr.
    destruct (delivers_step _ _ _ Hdel) as (w0 & -> & Hu0 & Hd0 & _).
    assert (Hne : currentPage (ui w0) <> 1).
    { rewrite Hu0, F1. lia. }
    destruct (loadMovies_resume_appends response items w0 Hne Hres Hr) as [Hg _].
    rewrite Hg, Hd0. rewrite loadMovies_grid; [reflexivity|]. simpl. lia.
Qed.

Lemma C5_loadMore_witness :
  loadMoreMovies page_opened = page_opened /\
  currentPage (ui (loadMoreMovies page_idle)) = currentPage (ui page_idle) + 1 /\
  (exists urls, journal (loadMoreMovies page_idle)
     = journal page_idle ++ Call_category "getTrendingMovies" 2 :: map Net_fetch urls) /\
  moviesGrid (dom (step (loadMoreMovies page_idle)
                     (2500, Response (trending_url 2)
                              (MovieAPI.HttpOk (page_of [movie 3 "Casablanca"] 3 2)))))
    = moviesGrid (dom page_idle) ++ map MovieCard [movie 3 "Casablanca"].
Proof.
  split; [apply (C5_loadMore page_opened); left; reflexivity|].
  destruct (C5_loadMore page_idle) as [_ H].
  destruct (H eq_refl eq_refl) as (Hp & _ & _ & _ & _ & Hd).
  split; [exact Hp|].
  destruct (Hd (Call_category "getTrendingMovies" 2) eq_refl) as (_ & _ & Hj & Hg).
  split; [exact Hj|].
  apply (Hg ltac:(vm_compute; discriminate) (_, _) (page_of [movie 3 "Casablanca"] 3 2));
    [| reflexivity | reflexivity].
  right. left. exists (trending_url 2), (page_of [movie 3 "Casablanca"] 3 2).
  repeat split; reflexivity.
Defined.

(** ** Failed fetches *)






(** ** A reset while a fetch is on its way *)

Lemma loadMovies_while_loading w : isLoading (ui w) = true -> loadMovies w = w.
Proof. intros H. unfold loadMovies. rewrite H. reflexivity. Qed.

(** A successful answer on the first page: the cards replace the grid. *)
Lemma loadMovies_resume_replaces response items w :
  currentPage (ui w) = 1 ->
  results_of response = Some (JArr items) ->
  renderable items = true ->
  moviesGrid (dom (loadMovies_resume (inl response) w)) = rendered items /\
  ui (loadMovies_resume (inl response) w)
    = set_isLoading false
        (set_hasMorePages (lt_js 1 (get_field "total_pages" response)) (ui w)).
Proof.
  intros Hp Hres Hr.
  unfold loadMovies_resume. rewrite Hres. unfold renderMovies. rewrite Hp. simpl.
  destruct items as [|m items].
  - simpl. unfold setLoadingState. simpl. rewrite Hp. split; reflexivity.
  - cbn [length_is_zero andb].
    pose proof (append_cards_renderable (m :: items) [] Hr) as Ha.
    cbn [moviesGrid dom set_grid with_dom]. rewrite Ha.
    unfold setLoadingState. simpl. rewrite Hp. split; reflexivity.
Qed.

Lemma awaiting_loadMovies_resume r w : awaiting (loadMovies_resume r w) = awaiting w.
Proof.
  unfold loadMovies_resume, setLoadingState, renderMovies. simpl.
  destruct r as [response|message]; [|reflexivity].
  destruct (results_of response) as [results|]; [|reflexivity].
  destruct (_ && _); [destruct (_ =? _); reflexivity|].
  destruct results; try (destruct (_ =? _); reflexivity).
  destruct (append_cards _ _) as [g [|]]; destruct (_ =? _); reflexivity.
Qed.




(** ** The query descriptor *)

Lemma loadMovies_resume_frame r w :
  journal (loadMovies_resume r w) = journal w /\
  api (loadMovies_resume r w) = api w /\
  timers (loadMovies_resume r w) = timers w /\
  next_timer (loadMovies_resume r w) = next_timer w /\
  searchTimeout (ui (loadMovies_resume r w)) = searchTimeout (ui w).
Proof.
  unfold loadMovies_resume, setLoadingState, renderMovies. simpl.
  destruct r as [response|message]; [|repeat split; reflexivity].
  destruct (results_of response) as [results|]; [|repeat split; reflexivity].
  destruct (_ && _); [destruct (_ =? _); repeat split; reflexivity|].
  destruct results; try (destruct (_ =? _); repeat split; reflexivity).
  destruct (append_cards _ _) as [g [|]]; destruct (_ =? _); repeat split; reflexivity.
Qed.



Lemma api_record_all urls : forall w,
  api (fold_left (fun w url => record (Net_fetch url) w) urls w) = api w.
Proof. induction urls as [|u urls IH]; intros w; simpl; [reflexivity|]. rewrite IH. reflexivity. Qed.

#[local] Arguments favorite_requests : simpl never.

Lemma getFavoriteMovies_cases w :
  let ids := if is_null (currentUser w) then [] else favorites w in
  let sa := favorite_requests (now w) ids (api w) in
  api (getFavoriteMovies w) = snd sa /\
  journal (getFavoriteMovies w) = journal w ++ map Net_fetch (waiting_urls (fst sa)) /\
  awaiting (getFavoriteMovies w)
    = Some (match all_settled (fst sa) with
            | Some movies => AwSettled (inl (favorites_response movies))
            | None => AwFavorites (fst sa)
            end).
Proof.
  unfold getFavoriteMovies.
  destruct (is_null (currentUser w)).
  { simpl. rewrite app_nil_r. auto. }
  destruct (favorites w) as [|f fs] eqn:Ef.
  { simpl. rewrite app_nil_r. auto. }
  cbv zeta. destruct (favorite_requests (now w) (f :: fs) (api w)) as [slots a].
  cbn [fst snd].
  destruct (all_settled slots); cbn [api journal awaiting with_awaiting];
    rewrite api_record_all, journal_record_all; auto.
Qed.

Lemma loadMovies_favorites w :
  currentSearchQuery (ui w) = "" -> currentCategory (ui w) = "favorites" ->
  isLoading (ui w) = false ->
  let ids := if is_null (currentUser w) then [] else favorites w in
  let sa := favorite_requests (now w) ids (api w) in
  api (loadMovies w) = snd sa /\
  journal (loadMovies w)
    = journal w ++ Call_getFavoriteMovies :: map Net_fetch (waiting_urls (fst sa)) /\
  awaiting (loadMovies w)
    = Some (match all_settled (fst sa) with
            | Some movies => AwSettled (inl (favorites_response movies))
            | None => AwFavorites (fst sa)
            end).
Proof.
  intros Hq Hc El. unfold loadMovies. rewrite El. cbv zeta.
  set (w1 := hideError (setLoadingState true w)).
  assert (Hu : ui w1 = set_isLoading true (ui w)).
  { subst w1. simpl. apply ui_setLoadingState. }
  assert (Hj : journal w1 = journal w /\ api w1 = api w /\ now w1 = now w
               /\ currentUser w1 = currentUser w /\ favorites w1 = favorites w).
  { subst w1. unfold setLoadingState. destruct (true && _); repeat split; reflexivity. }
  destruct Hj as (Hj & Hapi & Hnow & Huser & Hfav).
  clearbody w1. rewrite Hu. cbn [currentSearchQuery currentCategory set_isLoading].
  rewrite Hq, Hc. cbn [nonempty]. rewrite String.eqb_refl.
  pose proof (getFavoriteMovies_cases (record Call_getFavoriteMovies w1)) as H.
  cbn [currentUser favorites now api journal record] in H.
  rewrite Huser, Hfav, Hnow, Hapi, Hj in H.
  destruct H as (H1 & H2 & H3).
  split; [exact H1|]. split; [|exact H3].
  rewrite H2, <- app_assoc. reflexivity.
Qed.






(** ** The debounced search *)

Lemma same_timers_refl w : same_timers w w.
Proof. repeat split; reflexivity. Qed.

Lemma same_timers_trans w1 w2 w3 : same_timers w1 w2 -> same_timers w2 w3 -> same_timers w1 w3.
Proof.
  intros (A1 & A2 & A3 & A4) (B1 & B2 & B3 & B4).
  repeat split; congruence.
Qed.

Ltac timers_kept := first [apply same_timers_refl | repeat split; reflexivity].

Lemma performed_searches_app l l' :
  performed_searches (l ++ l') = performed_searches l ++ performed_searches l'.
Proof. apply flat_map_app. Qed.

Lemma performed_searches_fetches urls : performed_searches (map Net_fetch urls) = [].
Proof. induction urls as [|u urls IH]; simpl; [reflexivity | exact IH]. Qed.

Lemma same_timers_record_all urls : forall w,
  same_timers w (fold_left (fun w url => record (Net_fetch url) w) urls w).
Proof.
  induction urls as [|u urls IH]; intros w; simpl; [timers_kept|].
  eapply same_timers_trans; [|apply IH].
  repeat split; try reflexivity. simpl.
  rewrite performed_searches_app. simpl. apply app_nil_r.
Qed.

Lemma same_timers_suspend st w : same_timers w (suspend st w).
Proof.
  destruct st as [v|url]; repeat split; try reflexivity. simpl.
  rewrite performed_searches_app. simpl. apply app_nil_r.
Qed.

Lemma same_timers_getFavoriteMovies w : same_timers w (getFavoriteMovies w).
Proof.
  unfold getFavoriteMovies.
  destruct (is_null (currentUser w)); [timers_kept|].
  destruct (favorites w) as [|f fs]; [timers_kept|].
  destruct (favorite_requests _ _ _) as [slots a].
  assert (H : same_timers w
    (fold_left (fun w url => record (Net_fetch url) w) (waiting_urls slots) (with_api a w))).
  { eapply same_timers_trans; [|apply same_timers_record_all]. timers_kept. }
  destruct (all_settled slots); exact H.
Qed.

Lemma same_timers_setLoadingState b w : same_timers w (setLoadingState b w).
Proof. unfold setLoadingState. destruct (b && _); timers_kept. Qed.

Lemma same_timers_loadMovies w : same_timers w (loadMovies w).
Proof.
  unfold loadMovies. destruct (isLoading (ui w)); [timers_kept|]. cbv zeta.
  set (w1 := hideError (setLoadingState true w)).
  assert (H1 : same_timers w w1).
  { subst w1. eapply same_timers_trans; [apply (same_timers_setLoadingState true)|].
    timers_kept. }
  clearbody w1.
  assert (Hrec : forall d, is_descriptor d = true -> same_timers w (record d w1)).
  { intros d Hd. eapply same_timers_trans; [exact H1|].
    repeat split; try reflexivity. simpl. rewrite performed_searches_app.
    destruct d; try discriminate; simpl; apply app_nil_r. }
  assert (Hrec' : forall d a, is_descriptor d = true ->
                              same_timers w (with_api a (record d w1))).
  { intros d a Hd. eapply same_timers_trans; [apply (Hrec d Hd)|]. timers_kept. }
  destruct (nonempty (currentSearchQuery (ui w1))).
  - destruct (MovieAPI.searchMovies _ _ _ _) as [st a].
    eapply same_timers_trans; [|apply same_timers_suspend].
    apply Hrec'. reflexivity.
  - destruct (String.eqb (currentCategory (ui w1)) "favorites").
    + eapply same_timers_trans; [|apply same_timers_getFavoriteMovies].
      apply Hrec. reflexivity.
    + destruct (apiMethods (currentCategory (ui w1))) as [m|].
      * destruct (call_method _ _ _ _) as [st a].
        eapply same_timers_trans; [|apply same_timers_suspend].
        apply Hrec'. reflexivity.
      * eapply same_timers_trans; [|apply same_timers_setLoadingState].
        eapply same_timers_trans; [exact H1|]. timers_kept.
Qed.

Lemma same_timers_loadMovies_resume r w : same_timers w (loadMovies_resume r w).
Proof.
  destruct (loadMovies_resume_frame r w) as (H1 & _ & H3 & H4 & H5).
  repeat split; congruence.
Qed.

Lemma same_timers_switchCategory c w : same_timers w (switchCategory c w).
Proof.
  unfold switchCategory. destruct (_ && _); [timers_kept|].
  eapply same_timers_trans; [|apply same_timers_loadMovies]. timers_kept.
Qed.

Lemma same_timers_loadMoreMovies w : same_timers w (loadMoreMovies w).
Proof.
  unfold loadMoreMovies. destruct (_ || _); [timers_kept|].
  eapply same_timers_trans; [|apply same_timers_loadMovies]. timers_kept.
Qed.

Lemma same_timers_settle w : same_timers w (settle w).
Proof.
  unfold settle. destruct (awaiting w) as [[r|url|slots]|]; try timers_kept.
  eapply same_timers_trans; [|apply same_timers_loadMovies_resume]. timers_kept.
Qed.

Lemma same_timers_respond url r w : same_timers w (respond url r w).
Proof.
  unfold respond. destruct (awaiting w) as [[r0|url0|slots]|]; try timers_kept.
  - destruct (String.eqb url url0); [|timers_kept].
    destruct (MovieAPI.fetchData_resume _ _ _ _) as [res a].
    eapply same_timers_trans; [|apply same_timers_loadMovies_resume]. timers_kept.
  - destruct (answer_slot _ _ _ _ _) as [[slots' a]|]; [|timers_kept].
    destruct (all_settled slots'); [|timers_kept].
    eapply same_timers_trans; [|apply same_timers_loadMovies_resume]. timers_kept.
Qed.

Lemma typing_same_timers base t x w w' :
  same_timers w w' -> typing base t x w -> typing base t x w'.
Proof.
  intros (H1 & H2 & H3 & H4) (id & T1 & T2 & T3 & T4 & T5).
  exists id. rewrite H1, H2, H3, H4. auto.
Qed.

(** A keystroke on a page without pending timer starts the debounce. *)
Lemma typing_starts t x w :
  timers w = [] -> 0 < next_timer w ->
  typing (performed_searches (journal w)) t x (step w (t, Input_search x)).
Proof.
  intros Ht Hn. exists (next_timer w). unfold step, handleSearch. simpl.
  rewrite Ht.
  assert (Hp : match searchTimeout (ui w) with
               | Some id => if id =? 0 then [] else clearTimeout id []
               | None => []
               end = @nil Timer).
  { destruct (searchTimeout (ui w)) as [id|]; [destruct (id =? 0)|]; reflexivity. }
  rewrite Hp. simpl. repeat split; try reflexivity; lia.
Qed.

(** A further keystroke cancels the pending timer and sets a new one. *)
Lemma typing_keystroke base t0 x0 t x w :
  typing base t0 x0 w -> typing base t x (step w (t, Input_search x)).
Proof.
  intros (id & T1 & T2 & T3 & T4 & T5). exists (next_timer w).
  unfold step, handleSearch. simpl. rewrite T1, T2.
  assert (H0 : (id =? 0) = false) by (apply Z.eqb_neq; lia).
  rewrite H0. unfold clearTimeout. simpl. rewrite Z.eqb_refl. simpl.
  repeat split; try reflexivity; try lia. exact T5.
Qed.

(** An event that is not a keystroke and comes before the timer is due
    leaves the debounce as it is. *)
Lemma typing_other base t0 x0 t e w :
  typing base t0 x0 w -> t < t0 + 300 -> is_input e = false ->
  typing base t0 x0 (step w (t, e)).
Proof.
  intros Hty Hlt He.
  assert (Hnow : typing base t0 x0 (with_now t w)).
  { apply (typing_same_timers base t0 x0 w); [timers_kept | exact Hty]. }
  unfold step. simpl. destruct e as [c|x|id'| | | | |url r]; simpl; try discriminate.
  - eapply typing_same_timers; [apply same_timers_switchCategory | exact Hnow].
  - destruct Hty as (id & T1 & T2 & T3 & T4 & T5).
    unfold fire, find_timer. simpl. rewrite T1. simpl.
    destruct (id =? id'); [|exact Hnow].
    simpl. destruct (Z.leb_spec (t0 + 300) t); [lia | exact Hnow].
  - eapply typing_same_timers; [apply same_timers_loadMoreMovies | exact Hnow].
  - eapply typing_same_timers; [apply same_timers_loadMoreMovies | exact Hnow].
  - eapply typing_same_timers; [apply same_timers_loadMovies | exact Hnow].
  - eapply typing_same_timers; [apply same_timers_settle | exact Hnow].
  - eapply typing_same_timers; [apply same_timers_respond | exact Hnow].
Qed.

Lemma typing_run base es : forall t x w,
  typing base t x w -> in_window t es ->
  typing base (fst (last_keystroke t x es)) (snd (last_keystroke t x es)) (run es w).
Proof.
  induction es as [|[t' e] es IH]; intros t x w Hty Hw; [exact Hty|].
  destruct Hw as [Hlt Hw]. simpl in Hlt, Hw.
  change (run ((t', e) :: es) w) with (run es (step w (t', e))).
  destruct e as [c|x'|id'| | | | |url r];
    try (apply IH; [apply typing_other; [exact Hty | exact Hlt | reflexivity] | exact Hw]).
  apply IH; [|exact Hw]. apply (typing_keystroke base t x). exact Hty.
Qed.

(** When the timer runs out, its text is committed. *)
Lemma typing_fires base t x T w id :
  typing base t x w -> timers w = [{| timer_id := id; deadline := t + 300; timer_query := x |}] ->
  t + 300 <= T ->
  let w' := step w (T, Timeout id) in
  performed_searches (journal w') = base ++ [x] /\ timers w' = [] /\
  currentSearchQuery (ui w') = trim x /\ currentPage (ui w') = 1.
Proof.
  intros (id0 & T1 & T2 & T3 & T4 & T5) Hid Hle w'. subst w'.
  unfold step. simpl. unfold fire, find_timer. simpl.
  rewrite Hid. simpl. rewrite Z.eqb_refl. simpl.
  destruct (Z.leb_spec (t + 300) T); [|lia].
  unfold performSearch.
  match goal with |- context [loadMovies ?y] => set (w0 := y) end.
  destruct (same_timers_loadMovies w0) as (H1 & _ & _ & H4).
  destruct (ui_loadMovies w0) as [b Hb].
  rewrite H1, H4, Hb. subst w0. simpl.
  rewrite performed_searches_app, T5. simpl. auto.
Qed.

(** C7. A keystroke on a page without pending timer, followed by any events
    each of which comes less than 300 ms after the keystroke before it,
    commits no search while they last and leaves one timer pending, the one of
    the last keystroke: every earlier one has been cancelled.  That timer
    cannot run out before 300 ms have passed since the last keystroke; when
    it runs out, [performSearch] is called once, with the last text, and the
    search text becomes that text trimmed. *)
Theorem C7_debounce (w : World) (t1 : Z) (x1 : string) (es : list (Z * Event)) (T : Z) :
  timers w = [] -> 0 < next_timer w ->
  in_window t1 es ->
  let tn := fst (last_keystroke t1 x1 es) in
  let xn := snd (last_keystroke t1 x1 es) in
  let w' := run ((t1, Input_search x1) :: es) w in
  performed_searches (journal w') = performed_searches (journal w) /\
  exists id,
    timers w' = [{| timer_id := id; deadline := tn + 300; timer_query := xn |}] /\
    (forall t, t < tn + 300 ->
       performed_searches (journal (step w' (t, Timeout id)))
         = performed_searches (journal w)) /\
    (tn + 300 <= T ->
       let w'' := step w' (T, Timeout id) in
       performed_searches (journal w'') = performed_searches (journal w) ++ [xn] /\
       timers w'' = [] /\
       currentSearchQuery (ui w'') = trim xn /\ currentPage (ui w'') = 1).
Proof.
  intros Ht Hn Hw tn xn w'.
  assert (Hty : typing (performed_searches (journal w)) tn xn w').
  { subst tn xn w'. change (run ((t1, Input_search x1) :: es) w)
      with (run es (step w (t1, Input_search x1))).
    apply typing_run; [apply typing_starts; assumption | exact Hw]. }
  destruct Hty as (id & T1 & T2 & T3 & T4 & T5).
  split; [exact T5|]. exists id. split; [exact T1|]. split.
  - intros t Hlt.
    assert (Hty : typing (performed_searches (journal w)) tn xn w')
      by (exists id; auto).
    destruct (typing_other _ _ _ t (Timeout id) w' Hty Hlt eq_refl)
      as (_ & _ & _ & _ & _ & H). exact H.
  - intros HT.
    apply (typing_fires (performed_searches (journal w)) tn xn T w' id);
      [exists id; auto | exact T1 | exact HT].
Qed.

Lemma C7_debounce_witness :
  let w' := run [(1000, Input_search "d"); (1100, Input_search "du");
                 (1150, Response (trending_url 1) (MovieAPI.HttpOk trending_page));
                 (1390, Input_search " dune ")] page_opened in
  performed_searches (journal w') = [] /\
  exists id,
    timers w' = [{| timer_id := id; deadline := 1690; timer_query := " dune " |}] /\
    let w'' := step w' (1690, Timeout id) in
    performed_searches (journal w'') = [" dune "] /\ timers w'' = [] /\
    currentSearchQuery (ui w'') = "dune" /\ currentPage (ui w'') = 1.
Proof.
  intros w'.
  destruct (C7_debounce page_opened 1000 "d"
              [(1100, Input_search "du");
               (1150, Response (trending_url 1) (MovieAPI.HttpOk trending_page));
               (1390, Input_search " dune ")] 1690)
    as (H1 & id & H2 & _ & H3);
    [reflexivity | reflexivity | simpl; lia |].
  split; [exact H1|]. exists id. split; [exact H2|].
  apply H3. simpl. lia.
Defined.

(** ** Corrupt persisted state *)

(** C9, what the code does.  When the saved session is not JSON,
    [new AuthManager()] removes it from the store and the user stays [null].
    When the saved favourites of the signed-in user are not JSON,
    [loadFavorites] makes the set empty and leaves the store as it is: the
    corrupt record is still there. *)
Theorem C9_corrupt_records (parse : string -> option Json)
    (store : gmap string string) (blob : string) :
  nonempty blob = true -> parse blob = None ->
  (store !! "cinescope_user" = Some blob ->
     AuthManager_new parse store = (JNull, delete "cinescope_user" store)) /\
  (forall (user : Json) (favs : list Json),
     is_null user = false ->
     store !! ("favorites_" +:+ template (get_field "id" user)) = Some blob ->
     loadFavorites parse (Some user) favs store = ([], store) /\
     snd (loadFavorites parse (Some user) favs store)
       !! ("favorites_" +:+ template (get_field "id" user)) = Some blob).
Proof.
  intros Hne Hp. split.
  - intros Hs. unfold AuthManager_new, initializeAuth. rewrite Hs, Hne, Hp. reflexivity.
  - intros user favs Hu Hs.
    assert (H : loadFavorites parse (Some user) favs store = ([], store)).
    { unfold loadFavorites. rewrite Hu, Hs, Hne, Hp. reflexivity. }
    rewrite H. split; [reflexivity | exact Hs].
Qed.

Lemma C9_corrupt_records_witness :
  AuthManager_new parse_sample corrupt_store = (JNull, delete "cinescope_user" corrupt_store) /\
  loadFavorites parse_sample (Some sample_user) [JNum 3] corrupt_store = ([], corrupt_store) /\
  corrupt_store !! "favorites_1" = Some "[7,8".
Proof.
  split.
  - apply (C9_corrupt_records parse_sample corrupt_store "{id:"); reflexivity.
  - destruct (C9_corrupt_records parse_sample corrupt_store "[7,8" eq_refl eq_refl)
      as [_ H].
    destruct (H sample_user [JNum 3] eq_refl eq_refl) as [H1 H2].
    split; [exact H1|]. rewrite H1 in H2. exact H2.
Defined.

(** A saved set of favourites that parses is taken over, without
    repetitions. *)
Example loadFavorites_sample :
  loadFavorites parse_sample (Some sample_user) []
    (<["favorites_1" := "[7,8]"]> ∅)
  = ([JNum 7; JNum 8], <["favorites_1" := "[7,8]"]> ∅).
Proof. reflexivity. Qed.

Example buildURL_search :
  search_url "blade runner" 2
  = "https://api.themoviedb.org/3/search/movie?api_key=k&query=blade+runner&page=2".
Proof. reflexivity. Qed.

Example trim_sample :
  trim "  dune " = "dune" /\ trim "   " = "" /\ is_blank "   " = true /\
  trim (no_break_space +:+ "dune" +:+ no_break_space) = "dune" /\
  is_blank (no_break_space +:+ " ") = true.
Proof. repeat split; reflexivity. Qed.

(** ** The page stays consistent *)

(** Without a descriptor (a category that has no method) the load ends at
    once with the error "No results found". *)
Lemma loadMovies_no_descriptor w :
  isLoading (ui w) = false -> spec_descriptor (ui w) = None ->
  ui (loadMovies w) = ui w /\ awaiting (loadMovies w) = awaiting w /\
  journal (loadMovies w) = journal w /\
  errorHidden (dom (loadMovies w)) = false /\
  errorMessage (dom (loadMovies w)) = no_results_found.
Proof.
  intros El Hd. unfold loadMovies. rewrite El. cbv zeta.
  set (w1 := hideError (setLoadingState true w)).
  assert (Hu : ui w1 = set_isLoading true (ui w)).
  { subst w1. simpl. apply ui_setLoadingState. }
  assert (Hj : journal w1 = journal w /\ awaiting w1 = awaiting w).
  { subst w1. unfold setLoadingState. destruct (true && _); split; reflexivity. }
  destruct Hj as [Hj Ha]. clearbody w1.
  unfold spec_descriptor in Hd. rewrite Hu. simpl.
  destruct (nonempty (currentSearchQuery (ui w))); [discriminate|].
  destruct (String.eqb (currentCategory (ui w)) "favorites"); [discriminate|].
  destruct (apiMethods (currentCategory (ui w))); [discriminate|].
  rewrite ui_setLoadingState. unfold setLoadingState. simpl.
  rewrite Hu, Hj, Ha. destruct (ui w); simpl in *; subst. auto.
Qed.

Lemma consistent_loadMovies w : consistent w -> consistent (loadMovies w).
Proof.
  intros [Hl Hp]. destruct (isLoading (ui w)) eqn:El.
  - rewrite loadMovies_while_loading by exact El. split; [rewrite El|]; assumption.
  - destruct (ui_loadMovies w) as [b Hb].
    split; [|rewrite Hb; exact Hp].
    destruct (spec_descriptor (ui w)) as [d|] eqn:Ed.
    + destruct (loadMovies_issues w d El Ed) as (H1 & H2 & _). tauto.
    + destruct (loadMovies_no_descriptor w El Ed) as (H1 & H2 & _).
      rewrite H1, H2, El. exact Hl.
Qed.

Lemma consistent_loadMovies_resume r w :
  awaiting w = None -> 1 <= currentPage (ui w) -> consistent (loadMovies_resume r w).
Proof.
  intros Ha Hp. unfold consistent. rewrite awaiting_loadMovies_resume, Ha.
  assert (H : isLoading (ui (loadMovies_resume r w)) = false
              /\ currentPage (ui (loadMovies_resume r w)) = currentPage (ui w)).
  { unfold loadMovies_resume, setLoadingState, renderMovies. simpl.
    destruct r as [response|message]; [|split; reflexivity].
    destruct (results_of response) as [results|]; [|split; reflexivity].
    destruct (_ && _); [destruct (_ =? _); split; reflexivity|].
    destruct results; try (destruct (_ =? _); split; reflexivity).
    destruct (append_cards _ _) as [g [|]]; destruct (_ =? _); split; reflexivity. }
  destruct H as [H1 H2]. rewrite H1, H2. split; [|exact Hp].
  split; [discriminate | intros [x Hx]; discriminate].
Qed.

(** Every event keeps the page consistent. *)
Lemma consistent_step w te : consistent w -> consistent (step w te).
Proof.
  intros Hc. destruct te as [t e].
  assert (Hn : consistent (with_now t w)) by exact Hc.
  unfold step. simpl. set (w0 := with_now t w) in *. clearbody w0.
  destruct Hn as [Hl Hp].
  destruct e as [c|x|id| | | | |url r]; simpl.
  - unfold switchCategory. destruct (_ && _); [split; assumption|].
    apply consistent_loadMovies. split; simpl; [exact Hl | lia].
  - split; simpl; assumption.
  - unfold fire. destruct (find_timer id (timers w0)) as [tm|]; [|split; assumption].
    destruct (deadline tm <=? now w0); [|split; assumption].
    apply consistent_loadMovies. split; simpl; [exact Hl | lia].
  - unfold loadMoreMovies. destruct (_ || _); [split; assumption|].
    apply consistent_loadMovies. split; simpl; [exact Hl | lia].
  - unfold loadMoreMovies. destruct (_ || _); [split; assumption|].
    apply consistent_loadMovies. split; simpl; [exact Hl | lia].
  - apply consistent_loadMovies. split; assumption.
  - unfold settle. destruct (awaiting w0) as [[r|url|slots]|] eqn:Ea;
      try (split; [rewrite Ea|]; assumption).
    apply consistent_loadMovies_resume; [reflexivity | exact Hp].
  - unfold respond. destruct (awaiting w0) as [[r0|url0|slots]|] eqn:Ea;
      try (split; [rewrite Ea|]; assumption).
    + destruct (String.eqb url url0); [|split; [rewrite Ea|]; assumption].
      destruct (MovieAPI.fetchData_resume _ _ _ _) as [res a].
      apply consistent_loadMovies_resume; [reflexivity | exact Hp].
    + destruct (answer_slot _ _ _ _ _) as [[slots' a]|]; [|split; [rewrite Ea|]; assumption].
      destruct (all_settled slots').
      * apply consistent_loadMovies_resume; [reflexivity | exact Hp].
      * split; simpl; [|exact Hp].
        split; [eauto | intros _; apply Hl; eauto].
Qed.

(** The page is consistent from [new UIManager()] on. *)
Lemma consistent_run es : forall w, consistent w -> consistent (run es w).
Proof.
  induction es as [|te es IH]; intros w Hc; [exact Hc|].
  apply IH, consistent_step, Hc.
Qed.

Lemma consistent_new t a user favs es : consistent (run es (UIManager_new t a user favs)).
Proof.
  apply consistent_run. unfold UIManager_new. apply consistent_loadMovies.
  split; simpl; [|lia]. split; [discriminate | intros [x Hx]; discriminate].
Qed.

(** * More facts *)

(** ** The cache keeps its keys apart *)

Lemma cache_op_other k op a :
  touches k op = false -> MovieAPI.cache (cache_op a op) !! k = MovieAPI.cache a !! k.
Proof.
  intros Hk. destruct op as [t k'|t k' d]; simpl in *; apply String.eqb_neq in Hk.
  - unfold MovieAPI.getCache. destruct (MovieAPI.cache a !! k') as [e|]; [|reflexivity].
    destruct (MovieAPI.cacheExpiry <? t - MovieAPI.timestamp e); [|reflexivity].
    simpl. apply lookup_delete_ne. congruence.
  - apply lookup_insert_ne. congruence.
Qed.

Lemma getCache_by_entry t k a a' :
  MovieAPI.cache a !! k = MovieAPI.cache a' !! k ->
  fst (MovieAPI.getCache t k a) = fst (MovieAPI.getCache t k a').
Proof.
  intros H. unfold MovieAPI.getCache. rewrite H.
  destruct (MovieAPI.cache a' !! k) as [e|]; [|reflexivity].
  destruct (MovieAPI.cacheExpiry <? t - MovieAPI.timestamp e); reflexivity.
Qed.

(** Lookups and stores under other keys, whatever their number, times and
    payloads, change neither the entry of a key nor what a lookup of that key
    hands back: a store never pushes another entry out, and a lookup removes
    at most the entry it looks up. *)
Theorem cache_keys_independent (k : string) (ops : list CacheOp) (a : MovieAPI.t) (t : Z) :
  forallb (fun op => negb (touches k op)) ops = true ->
  MovieAPI.cache (fold_left cache_op ops a) !! k = MovieAPI.cache a !! k /\
  fst (MovieAPI.getCache t k (fold_left cache_op ops a)) = fst (MovieAPI.getCache t k a).
Proof.
  intros Hops.
  assert (H : MovieAPI.cache (fold_left cache_op ops a) !! k = MovieAPI.cache a !! k).
  { revert a. induction ops as [|op ops IH]; intros a; simpl in *; [reflexivity|].
    apply andb_prop in Hops as [Hop Hops']. rewrite IH by exact Hops'.
    apply cache_op_other. apply negb_true_iff, Hop. }
  split; [exact H | apply getCache_by_entry, H].
Qed.

Lemma cache_keys_independent_witness :
  fst (MovieAPI.getCache 50 "a"
         (fold_left cache_op [Store 10 "b" (JNum 2); Lookup 400000 "c"; Lookup 20 "b"]
            (MovieAPI.setCache 0 "a" (JNum 1) api0)))
  = JNum 1.
Proof.
  rewrite (proj2 (cache_keys_independent "a"
             [Store 10 "b" (JNum 2); Lookup 400000 "c"; Lookup 20 "b"]
             (MovieAPI.setCache 0 "a" (JNum 1) api0) 50 eq_refl)).
  reflexivity.
Defined.

(** ** fetchData and the cache *)

Lemma buildURL_setCache t k d a endpoint params :
  MovieAPI.buildURL (MovieAPI.setCache t k d a) endpoint params
    = MovieAPI.buildURL a endpoint params.
Proof. reflexivity. Qed.

(** A request that the network answered is served from the cache for the
    next five minutes: [fetchData] for the same endpoint and parameters
    returns the stored answer at once and asks nothing.  After five minutes
    it drops the entry and asks the network again. *)
Theorem fetchData_served_from_cache (a : MovieAPI.t) (endpoint : string)
    (params : list (string * MovieAPI.Param)) (d : Json) (t1 t2 : Z) :
  truthy d = true ->
  let url := MovieAPI.buildURL a endpoint params in
  let a1 := snd (MovieAPI.fetchData_resume t1 url (MovieAPI.HttpOk d) a) in
  (t2 - t1 <= MovieAPI.cacheExpiry ->
     MovieAPI.fetchData_start t2 endpoint params a1 = (MovieAPI.Returned d, a1)) /\
  (MovieAPI.cacheExpiry < t2 - t1 ->
     MovieAPI.fetchData_start t2 endpoint params a1
       = (MovieAPI.Waiting url,
          MovieAPI.with_cache (delete url (MovieAPI.cache a)) a)).
Proof.
  intros Hd url a1. subst a1. simpl. unfold MovieAPI.fetchData_start.
  rewrite buildURL_setCache. fold url. unfold MovieAPI.getCacheKey.
  rewrite getCache_setCache. split; intros Ht.
  - destruct (Z.leb_spec (t2 - t1) MovieAPI.cacheExpiry); [|lia]. rewrite Hd. reflexivity.
  - destruct (Z.leb_spec (t2 - t1) MovieAPI.cacheExpiry); [lia|]. reflexivity.
Qed.

Lemma fetchData_served_from_cache_witness :
  let a1 := snd (MovieAPI.fetchData_resume 1000 (trending_url 1)
                   (MovieAPI.HttpOk trending_page) api0) in
  MovieAPI.fetchData_start 301000 "/trending/movie/week" [("page", MovieAPI.PNum 1)] a1
    = (MovieAPI.Returned trending_page, a1) /\
  fst (MovieAPI.fetchData_start 301001 "/trending/movie/week" [("page", MovieAPI.PNum 1)] a1)
    = MovieAPI.Waiting (trending_url 1).
Proof.
  intros a1.
  destruct (fetchData_served_from_cache api0 "/trending/movie/week"
              [("page", MovieAPI.PNum 1)] trending_page 1000 301000 eq_refl) as [H1 _].
  destruct (fetchData_served_from_cache api0 "/trending/movie/week"
              [("page", MovieAPI.PNum 1)] trending_page 1000 301001 eq_refl) as [_ H2].
  split.
  - apply H1. vm_compute. discriminate.
  - exact (f_equal fst (H2 eq_refl)).
Defined.

(** A falsy answer ([null], [false], [0], the empty string) is stored but is
    never served: whenever the same request is made again, [fetchData] asks
    the network, however recent the stored answer is. *)
Theorem fetchData_never_serves_falsy (a : MovieAPI.t) (endpoint : string)
    (params : list (string * MovieAPI.Param)) (d : Json) (t1 t2 : Z) :
  truthy d = false ->
  let url := MovieAPI.buildURL a endpoint params in
  let a1 := snd (MovieAPI.fetchData_resume t1 url (MovieAPI.HttpOk d) a) in
  MovieAPI.cache a1 !! url = Some {| MovieAPI.data := d; MovieAPI.timestamp := t1 |} /\
  fst (MovieAPI.fetchData_start t2 endpoint params a1) = MovieAPI.Waiting url.
Proof.
  intros Hd url a1. subst a1. simpl. split; [apply lookup_insert_eq|].
  unfold MovieAPI.fetchData_start.
  rewrite buildURL_setCache. fold url. unfold MovieAPI.getCacheKey.
  rewrite getCache_setCache.
  destruct (t2 - t1 <=? MovieAPI.cacheExpiry); [rewrite Hd|]; reflexivity.
Qed.

Lemma fetchData_never_serves_falsy_witness :
  fst (MovieAPI.fetchData_start 1001 "/movie/7" []
         (snd (MovieAPI.fetchData_resume 1000 (MovieAPI.buildURL api0 "/movie/7" [])
                 (MovieAPI.HttpOk JNull) api0)))
  = MovieAPI.Waiting (MovieAPI.buildURL api0 "/movie/7" []).
Proof.
  apply (fetchData_never_serves_falsy api0 "/movie/7" [] JNull 1000 1001 eq_refl).
Defined.

(** ** Cache keys tell the searches apart *)

Lemma all_ascii_complete c : In c all_ascii.
Proof.
  unfold all_ascii. rewrite <- (ascii_nat_embedding c).
  apply in_map, in_seq. pose proof (nat_ascii_bounded c). lia.
Qed.

Lemma encode_byte_safe c : all_chars url_safe (MovieAPI.encode_byte c) = true.
Proof.
  assert (H : forallb (fun c => all_chars url_safe (MovieAPI.encode_byte c)) all_ascii = true)
    by (vm_compute; reflexivity).
  rewrite forallb_forall in H. apply H, all_ascii_complete.
Qed.

Lemma all_chars_app P s1 s2 :
  all_chars P (s1 +:+ s2) = all_chars P s1 && all_chars P s2.
Proof.
  induction s1 as [|c s1 IH]; simpl; [reflexivity|]. rewrite IH. apply andb_assoc.
Qed.

(** What the serialiser writes for a key or a value holds none of the
    separators of the query. *)
Lemma encode_safe s : all_chars url_safe (MovieAPI.encode s) = true.
Proof.
  induction s as [|c s IH]; simpl; [reflexivity|].
  rewrite all_chars_app, encode_byte_safe, IH. reflexivity.
Qed.

Lemma append_prefix a : forall b r1 r2,
  a +:+ r1 = b +:+ r2 -> String.prefix a b = true \/ String.prefix b a = true.
Proof.
  induction a as [|x a IH]; intros b r1 r2 H; [left; destruct b; reflexivity|].
  destruct b as [|y b]; [right; reflexivity|].
  simpl in H. injection H as -> H. simpl.
  destruct (IH b r1 r2 H) as [Hp|Hp]; [left|right];
    destruct (ascii_dec y y); try congruence; exact Hp.
Qed.

(** No code of a byte begins the code of another byte. *)
Lemma encode_byte_prefix_free c1 c2 r1 r2 :
  MovieAPI.encode_byte c1 +:+ r1 = MovieAPI.encode_byte c2 +:+ r2 -> c1 = c2.
Proof.
  intros H.
  assert (Hall : forallb (fun x => forallb (fun y =>
             implb (String.prefix (MovieAPI.encode_byte x) (MovieAPI.encode_byte y))
                   (Ascii.eqb x y)) all_ascii) all_ascii = true)
    by (vm_compute; reflexivity).
  rewrite forallb_forall in Hall.
  assert (Hp : forall x y,
             String.prefix (MovieAPI.encode_byte x) (MovieAPI.encode_byte y) = true -> x = y).
  { intros x y Hxy. pose proof (Hall x (all_ascii_complete x)) as Hx.
    rewrite forallb_forall in Hx. specialize (Hx y (all_ascii_complete y)).
    rewrite Hxy in Hx. simpl in Hx. apply Ascii.eqb_eq, Hx. }
  destruct (append_prefix _ _ _ _ H) as [Hpre|Hpre]; [|symmetry]; apply Hp, Hpre.
Qed.

Lemma encode_byte_nonempty c : MovieAPI.encode_byte c <> "".
Proof.
  unfold MovieAPI.encode_byte.
  destruct (_ =? _)%N; [discriminate|]. destruct (_ || _); discriminate.
Qed.

(** Two texts with the same code are the same text. *)
Lemma encode_inj s1 : forall s2, MovieAPI.encode s1 = MovieAPI.encode s2 -> s1 = s2.
Proof.
  induction s1 as [|c1 s1 IH]; intros [|c2 s2] H; simpl in H.
  - reflexivity.
  - exfalso. destruct (MovieAPI.encode_byte c2) eqn:E; [|discriminate].
    exact (encode_byte_nonempty c2 E).
  - exfalso. destruct (MovieAPI.encode_byte c1) eqn:E; [|discriminate].
    exact (encode_byte_nonempty c1 E).
  - pose proof (encode_byte_prefix_free _ _ _ _ H) as ->.
    apply (inj (String.app _)) in H. f_equal. apply IH, H.
Qed.

(** Two strings of safe characters followed by a separator and something:
    when the wholes agree, the parts agree. *)
Lemma split_at_separator sep a : forall b r1 r2,
  url_safe sep = false ->
  all_chars url_safe a = true -> all_chars url_safe b = true ->
  a +:+ String sep r1 = b +:+ String sep r2 -> a = b /\ r1 = r2.
Proof.
  induction a as [|x a IH]; intros [|y b] r1 r2 Hsep Ha Hb H; simpl in *.
  - injection H as ->. auto.
  - injection H as -> _. apply andb_prop in Hb as [Hy _]. congruence.
  - injection H as -> _. apply andb_prop in Ha as [Hx _]. congruence.
  - injection H as -> H. apply andb_prop in Ha as [_ Ha]. apply andb_prop in Hb as [_ Hb].
    destruct (IH b r1 r2 Hsep Ha Hb H) as [-> ->]. auto.
Qed.

Lemma string_of_Z_inj z1 z2 : string_of_Z z1 = string_of_Z z2 -> z1 = z2.
Proof.
  unfold string_of_Z. intros H.
  assert (Hn : forall z, Z.to_int z <> Decimal.Pos Decimal.Nil
                         /\ Z.to_int z <> Decimal.Neg Decimal.Nil).
  { intros [|p|p]; simpl; split; try discriminate;
      intros [=E]; exact (DecimalPos.Unsigned.to_uint_nonnil p E). }
  pose proof (NilZero.isi (Z.to_int z1) (proj1 (Hn z1)) (proj2 (Hn z1))) as H1.
  pose proof (NilZero.isi (Z.to_int z2) (proj1 (Hn z2)) (proj2 (Hn z2))) as H2.
  rewrite H in H1. rewrite H1 in H2. injection H2 as H2.
  rewrite <- (DecimalZ.of_to z1), <- (DecimalZ.of_to z2), H2. reflexivity.
Qed.

(** Two searches look under the same cache key, and ask for the same URL,
    exactly when their texts agree after trimming and their pages agree: the
    answer stored for one search is never handed to another.  On a cache
    without entry for it, that key is the URL [searchMovies] waits for. *)
Theorem search_keys_distinct (a : MovieAPI.t) (q1 q2 : string) (p1 p2 : Z) :
  (search_key a q1 p1 = search_key a q2 p2 <-> trim q1 = trim q2 /\ p1 = p2) /\
  (forall t : Z,
     nonempty (trim q1) = true -> MovieAPI.cache a !! search_key a q1 p1 = None ->
     MovieAPI.searchMovies t q1 p1 a = (MovieAPI.Waiting (search_key a q1 p1), a)).
Proof.
  split.
  - split; [|intros [H1 ->]; unfold search_key; rewrite H1; reflexivity].
    unfold search_key, MovieAPI.getCacheKey, MovieAPI.buildURL.
    cbn [fold_left MovieAPI.add_param MovieAPI.set_param snd fst].
    change (String.eqb "query" "api_key") with false.
    change (String.eqb "page" "api_key") with false.
    change (String.eqb "page" "query") with false.
    cbn iota. cbn [MovieAPI.serialize]. intros H.
    repeat (apply (inj (String.app _)) in H).
    change (MovieAPI.encode (trim q1) +:+ String "&"
              (MovieAPI.encode "page" +:+ "=" +:+ MovieAPI.encode (string_of_Z p1))
            = MovieAPI.encode (trim q2) +:+ String "&"
              (MovieAPI.encode "page" +:+ "=" +:+ MovieAPI.encode (string_of_Z p2))) in H.
    apply split_at_separator in H as [Hq Hp];
      [| reflexivity | apply encode_safe | apply encode_safe].
    split; [apply encode_inj, Hq|].
    repeat (apply (inj (String.app _)) in Hp).
    apply string_of_Z_inj, encode_inj, Hp.
  - intros t Hq Hc. unfold MovieAPI.searchMovies. rewrite Hq. simpl.
    unfold MovieAPI.fetchData_start. fold (search_key a q1 p1).
    unfold MovieAPI.getCache. rewrite Hc. reflexivity.
Qed.

Lemma search_keys_distinct_witness :
  search_key api0 " dune " 1 = search_key api0 "dune" 1 /\
  MovieAPI.searchMovies 0 " dune " 1 api0 = (MovieAPI.Waiting (search_url "dune" 1), api0).
Proof.
  split.
  - apply (search_keys_distinct api0 " dune " "dune" 1 1). split; reflexivity.
  - apply (search_keys_distinct api0 " dune " "dune" 1 1); reflexivity.
Defined.

Lemma call_method_key method t page a :
  call_method method t page a
    = MovieAPI.fetchData_start t (category_endpoint method) [("page", MovieAPI.PNum page)] a.
Proof.
  unfold call_method, category_endpoint.
  repeat (destruct (String.eqb method _); [reflexivity|]). reflexivity.
Qed.

Lemma apiMethods_cases c m :
  apiMethods c = Some m ->
  (c = "trending" /\ m = "getTrendingMovies") \/ (c = "popular" /\ m = "getPopularMovies") \/
  (c = "top_rated" /\ m = "getTopRatedMovies") \/ (c = "upcoming" /\ m = "getUpcomingMovies").
Proof.
  unfold apiMethods. intros H.
  destruct (String.eqb_spec c "trending"); [injection H as <-; auto|].
  destruct (String.eqb_spec c "popular"); [injection H as <-; auto|].
  destruct (String.eqb_spec c "top_rated"); [injection H as <-; auto 6|].
  destruct (String.eqb_spec c "upcoming"); [injection H as <-; auto 6|].
  discriminate.
Qed.

Lemma page_suffix_inj a endpoint p1 p2 :
  MovieAPI.buildURL a endpoint [("page", MovieAPI.PNum p1)]
    = MovieAPI.buildURL a endpoint [("page", MovieAPI.PNum p2)] -> p1 = p2.
Proof.
  unfold MovieAPI.buildURL.
  cbn [fold_left MovieAPI.add_param MovieAPI.set_param snd fst].
  change (String.eqb "page" "api_key") with false. cbn iota. cbn [MovieAPI.serialize].
  intros H. repeat (apply (inj (String.app _)) in H).
  apply string_of_Z_inj, encode_inj, H.
Qed.

Lemma call_method_miss method t page a :
  MovieAPI.cache a !! category_key a method page = None ->
  call_method method t page a = (MovieAPI.Waiting (category_key a method page), a).
Proof.
  intros Hc. rewrite call_method_key.
  unfold MovieAPI.fetchData_start, MovieAPI.getCache, category_key, MovieAPI.getCacheKey in *.
  cbv zeta. rewrite Hc. reflexivity.
Qed.

Lemma category_key_not_search a c m p q p' :
  apiMethods c = Some m -> category_key a m p <> search_key a q p'.
Proof.
  intros Hm H.
  apply apiMethods_cases in Hm as [[-> ->]|[[-> ->]|[[-> ->]|[-> ->]]]];
    unfold category_key, search_key, MovieAPI.getCacheKey, MovieAPI.buildURL in H;
    apply (inj (String.app _)) in H; simpl in H; discriminate H.
Qed.

Lemma category_key_inj a c1 c2 m1 m2 p1 p2 :
  apiMethods c1 = Some m1 -> apiMethods c2 = Some m2 ->
  category_key a m1 p1 = category_key a m2 p2 -> c1 = c2 /\ p1 = p2.
Proof.
  intros H1 H2 H.
  apply apiMethods_cases in H1 as [[-> ->]|[[-> ->]|[[-> ->]|[-> ->]]]];
  apply apiMethods_cases in H2 as [[-> ->]|[[-> ->]|[[-> ->]|[-> ->]]]];
  unfold category_key, MovieAPI.getCacheKey in H;
  first [ apply page_suffix_inj in H; split; [reflexivity | exact H]
        | exfalso; unfold MovieAPI.buildURL in H;
          apply (inj (String.app _)) in H; simpl in H; discriminate H ].
Qed.

(** The list methods of two categories look under the same cache key exactly
    when the categories and the pages are the same, and never under the key
    of a search: a page of one list is never served for another.  On a cache
    without entry for it, the key is the URL the method waits for. *)
Theorem list_keys_distinct (a : MovieAPI.t) (c1 c2 m1 m2 : string) (p1 p2 : Z) :
  apiMethods c1 = Some m1 -> apiMethods c2 = Some m2 ->
  (category_key a m1 p1 = category_key a m2 p2 <-> c1 = c2 /\ p1 = p2) /\
  (forall (q : string) (p : Z), category_key a m1 p1 <> search_key a q p) /\
  (forall t : Z,
     MovieAPI.cache a !! category_key a m1 p1 = None ->
     call_method m1 t p1 a = (MovieAPI.Waiting (category_key a m1 p1), a)).
Proof.
  intros H1 H2. split; [|split].
  - split; [apply (category_key_inj a c1 c2 m1 m2 p1 p2 H1 H2)|].
    intros [-> ->]. rewrite H1 in H2. injection H2 as ->. reflexivity.
  - intros q p. apply (category_key_not_search a c1 m1 p1 q p H1).
  - intros t. apply call_method_miss.
Qed.

Lemma list_keys_distinct_witness :
  category_key api0 "getPopularMovies" 2 <> category_key api0 "getTopRatedMovies" 2 /\
  category_key api0 "getPopularMovies" 2 <> search_key api0 "popular" 2 /\
  call_method "getPopularMovies" 0 2 api0
    = (MovieAPI.Waiting (category_key api0 "getPopularMovies" 2), api0).
Proof.
  destruct (list_keys_distinct api0 "popular" "top_rated" "getPopularMovies"
              "getTopRatedMovies" 2 2 eq_refl eq_refl) as (H1 & H2 & H3).
  split; [|split].
  - intros H. apply H1 in H as [H _]. discriminate H.
  - apply H2.
  - apply H3. reflexivity.
Defined.

(** ** formatRuntime *)

(** For a runtime of at least one minute, the hours and the minutes that
    [formatRuntime] writes add up to the runtime, the minutes written are
    below 60, and the hours are written exactly from 60 minutes on. *)
Theorem formatRuntime_parts (m : Z) :
  0 < m ->
  exists h r : Z,
    m = 60 * h + r /\ 0 <= r < 60 /\ 0 <= h /\ (h = 0 <-> m < 60) /\
    formatRuntime (Some m)
      = if 0 <? h then string_of_Z h +:+ "h " +:+ string_of_Z r +:+ "m"
        else string_of_Z r +:+ "m".
Proof.
  intros Hm. exists (m / 60), (Z.rem m 60).
  assert (Hr : Z.rem m 60 = m mod 60) by (apply Z.rem_mod_nonneg; lia).
  pose proof (Z.mod_pos_bound m 60 ltac:(lia)) as Hb.
  pose proof (Z.div_mod m 60 ltac:(lia)) as Hd.
  assert (Hh : 0 <= m / 60) by (apply Z.div_pos; lia).
  rewrite Hr. split; [lia|]. split; [lia|]. split; [lia|]. split.
  - split; [intros H0; rewrite H0 in Hd; lia|].
    intros Hlt. apply Z.div_small. lia.
  - unfold formatRuntime. destruct (Z.eqb_spec m 0); [lia|]. cbv zeta. rewrite Hr. reflexivity.
Qed.

Lemma formatRuntime_parts_witness :
  exists h r : Z,
    90 = 60 * h + r /\ 0 <= r < 60 /\ 0 <= h /\ (h = 0 <-> 90 < 60) /\
    formatRuntime (Some 90)
      = if 0 <? h then string_of_Z h +:+ "h " +:+ string_of_Z r +:+ "m"
        else string_of_Z r +:+ "m".
Proof. apply (formatRuntime_parts 90). lia. Defined.

Example formatRuntime_samples :
  formatRuntime (Some 90) = "1h 30m" /\ formatRuntime (Some 45) = "45m" /\
  formatRuntime None = "N/A" /\ formatRuntime (Some 0) = "N/A".
Proof. repeat split; reflexivity. Qed.

(** ** The favourites *)

Lemma same_value_sym a b : same_value a b = same_value b a.
Proof.
  destruct a, b; simpl; try reflexivity.
  - destruct b, b0; reflexivity.
  - apply Z.eqb_sym.
  - apply String.eqb_sym.
Qed.

Lemma same_value_eq a b : same_value a b = true -> a = b.
Proof.
  destruct a, b; simpl; try discriminate; intros H.
  - reflexivity.
  - apply Bool.eqb_prop in H. congruence.
  - apply Z.eqb_eq in H. congruence.
  - apply String.eqb_eq in H. congruence.
Qed.

Lemma same_value_refl x : is_primitive x = true -> same_value x x = true.
Proof.
  destruct x; simpl; try discriminate; intros _.
  - reflexivity.
  - destruct b; reflexivity.
  - apply Z.eqb_refl.
  - apply String.eqb_refl.
Qed.

Lemma existsb_snoc (f : Json -> bool) l x : existsb f (l ++ [x]) = existsb f l || f x.
Proof. rewrite existsb_app. simpl. rewrite orb_false_r. reflexivity. Qed.

Lemma has_add x y l :
  existsb (same_value y) (add_to_set l x)
    = existsb (same_value y) l || (same_value y x && negb (existsb (same_value x) l)).
Proof.
  unfold add_to_set. destruct (existsb (same_value x) l) eqn:E.
  - rewrite andb_false_r, orb_false_r. reflexivity.
  - rewrite existsb_snoc, andb_true_r. reflexivity.
Qed.

Lemma has_delete x y l :
  existsb (same_value y) (set_delete x l)
    = existsb (same_value y) l && negb (same_value x y).
Proof.
  unfold set_delete. induction l as [|z l IH]; simpl; [reflexivity|].
  destruct (same_value x z) eqn:Exz; simpl; rewrite IH.
  - destruct (same_value y z) eqn:Eyz; simpl; [|reflexivity].
    pose proof (same_value_eq _ _ Eyz) as Hyz. pose proof (same_value_eq _ _ Exz) as Hxz.
    subst x y. rewrite Exz. simpl. apply andb_false_r.
  - destruct (same_value y z) eqn:Eyz; simpl; [|reflexivity].
    pose proof (same_value_eq _ _ Eyz) as Hyz. subst y. rewrite Exz. reflexivity.
Qed.

Lemma distinct_snoc l x :
  distinct (l ++ [x]) = distinct l && negb (existsb (same_value x) l).
Proof.
  induction l as [|y l IH]; simpl; [reflexivity|].
  rewrite existsb_snoc, IH, (same_value_sym x y).
  destruct (existsb (same_value y) l), (same_value y x), (distinct l),
    (existsb (same_value x) l); reflexivity.
Qed.

Lemma distinct_app_l a b : distinct (a ++ b) = true -> distinct a = true.
Proof.
  induction a as [|y a IH]; simpl; [reflexivity|].
  rewrite existsb_app. intros [H1 H2]%andb_prop.
  rewrite (IH H2). destruct (existsb (same_value y) a); [discriminate | reflexivity].
Qed.

Lemma distinct_add l x : distinct l = true -> distinct (add_to_set l x) = true.
Proof.
  intros Hl. unfold add_to_set. destruct (existsb (same_value x) l) eqn:E; [exact Hl|].
  rewrite distinct_snoc, Hl, E. reflexivity.
Qed.

Lemma distinct_delete l x : distinct l = true -> distinct (set_delete x l) = true.
Proof.
  induction l as [|y l IH]; simpl; [reflexivity|].
  intros [H1 H2]%andb_prop. destruct (same_value x y); simpl; [apply IH, H2|].
  fold (set_delete x l). rewrite has_delete, (IH H2).
  apply negb_true_iff in H1. rewrite H1. reflexivity.
Qed.

Lemma fold_add_distinct l : forall acc,
  distinct acc = true -> distinct (fold_left add_to_set l acc) = true.
Proof.
  induction l as [|x l IH]; intros acc Ha; simpl; [exact Ha|].
  apply IH, distinct_add, Ha.
Qed.

Lemma fold_add_id l : forall acc,
  distinct (acc ++ l) = true -> fold_left add_to_set l acc = acc ++ l.
Proof.
  induction l as [|x l IH]; intros acc Hd; simpl; [rewrite app_nil_r; reflexivity|].
  replace (acc ++ x :: l) with ((acc ++ [x]) ++ l) in * by (rewrite <- app_assoc; reflexivity).
  pose proof (distinct_app_l _ _ Hd) as Hx. rewrite distinct_snoc in Hx.
  apply andb_prop in Hx as [_ Hx]. apply negb_true_iff in Hx.
  unfold add_to_set at 2. rewrite Hx. apply IH, Hd.
Qed.

(** [addFavorite] needs a signed-in user: without one it returns false and
    changes neither the set nor the store.  With one it returns true, the
    movie is a favourite afterwards, the favourites of before still are, and
    the store holds the set as it is after the call. *)
Theorem addFavorite_needs_sign_in (JSON_stringify : Json -> string)
    (movieId : Json) (acc : Account) :
  (isAuthenticated (authManager acc) = false ->
     addFavorite JSON_stringify movieId acc = (false, acc)) /\
  (isAuthenticated (authManager acc) = true ->
     let acc' := snd (addFavorite JSON_stringify movieId acc) in
     fst (addFavorite JSON_stringify movieId acc) = true /\
     (is_primitive movieId = true -> isFavorite movieId acc' = true) /\
     (forall other, isFavorite other acc = true -> isFavorite other acc' = true) /\
     localStorage acc' !! favorites_key (authManager acc)
       = Some (JSON_stringify (JArr (favoriteSet acc')))).
Proof.
  unfold addFavorite, saveFavorites. split; intros Ha; rewrite Ha; [reflexivity|].
  simpl. rewrite Ha. simpl. split; [reflexivity|]. split; [|split].
  - intros Hp. unfold isFavorite. simpl. rewrite has_add, (same_value_refl _ Hp).
    destruct (existsb (same_value movieId) (favoriteSet acc)); reflexivity.
  - intros other Ho. unfold isFavorite in *. simpl. rewrite has_add, Ho. reflexivity.
  - apply lookup_insert_eq.
Qed.

Lemma addFavorite_needs_sign_in_witness :
  addFavorite stringify_sample (JNum 8)
    {| authManager := Some JNull; favoriteSet := []; localStorage := ∅ |}
    = (false, {| authManager := Some JNull; favoriteSet := []; localStorage := ∅ |}) /\
  isFavorite (JNum 8) (snd (addFavorite stringify_sample (JNum 8) member_account)) = true /\
  localStorage (snd (addFavorite stringify_sample (JNum 8) member_account)) !! "favorites_1"
    = Some "[7,8]".
Proof.
  split; [apply (addFavorite_needs_sign_in stringify_sample (JNum 8)); reflexivity|].
  destruct (addFavorite_needs_sign_in stringify_sample (JNum 8) member_account) as [_ H].
  destruct (H eq_refl) as (_ & H2 & _ & H4).
  split; [apply H2; reflexivity | exact H4].
Defined.

(** For a signed-in user, [toggleFavorite] turns a favourite into a
    non-favourite and back, and leaves every other movie as it was; two
    toggles in a row give back the first answer of [isFavorite]. *)
Theorem toggleFavorite_flips (JSON_stringify : Json -> string)
    (movieId : Json) (acc : Account) :
  isAuthenticated (authManager acc) = true -> is_primitive movieId = true ->
  let once := toggleFavorite JSON_stringify movieId acc in
  isFavorite movieId once = negb (isFavorite movieId acc) /\
  (forall other, same_value other movieId = false ->
     isFavorite other once = isFavorite other acc) /\
  isFavorite movieId (toggleFavorite JSON_stringify movieId once) = isFavorite movieId acc.
Proof.
  intros Ha Hp.
  assert (Hflip : forall acc0, isAuthenticated (authManager acc0) = true ->
            isFavorite movieId (toggleFavorite JSON_stringify movieId acc0)
              = negb (isFavorite movieId acc0)
            /\ authManager (toggleFavorite JSON_stringify movieId acc0) = authManager acc0).
  { intros acc0 Ha0. unfold toggleFavorite, addFavorite, removeFavorite, saveFavorites.
    destruct (isFavorite movieId acc0) eqn:Ef; simpl; rewrite Ha0; simpl.
    - unfold isFavorite. simpl. rewrite has_delete, (same_value_refl _ Hp).
      rewrite andb_false_r. auto.
    - unfold isFavorite in *. simpl. rewrite has_add, (same_value_refl _ Hp), Ef. auto. }
  destruct (Hflip acc Ha) as [H1 Hauth]. cbv zeta. split; [exact H1|]. split.
  - intros other Ho. unfold toggleFavorite, addFavorite, removeFavorite, saveFavorites.
    destruct (isFavorite movieId acc) eqn:Ef; simpl; rewrite Ha; simpl; unfold isFavorite; simpl.
    + rewrite has_delete, (same_value_sym movieId other), Ho. apply andb_true_r.
    + rewrite has_add, Ho. simpl. apply orb_false_r.
  - destruct (Hflip (toggleFavorite JSON_stringify movieId acc)) as [H2 _];
      [rewrite Hauth; exact Ha|].
    rewrite H2, H1. apply negb_involutive.
Qed.

Lemma toggleFavorite_flips_witness :
  isFavorite (JNum 7) (toggleFavorite stringify_sample (JNum 7) member_account) = false /\
  isFavorite (JNum 7)
    (toggleFavorite stringify_sample (JNum 7)
       (toggleFavorite stringify_sample (JNum 7) member_account)) = true.
Proof.
  destruct (toggleFavorite_flips stringify_sample (JNum 7) member_account eq_refl eq_refl)
    as (H1 & _ & H3).
  split; [exact H1 | exact H3].
Defined.

(** What a signed-in user's [saveFavorites] writes is what [loadFavorites]
    reads back: a [FavoritesManager] made later for the same user over the
    same store holds the same favourites in the same order, given that
    [JSON.parse] undoes [JSON.stringify] on the array and that the text is
    not empty. *)
Theorem favorites_survive_reload (JSON_parse : string -> option Json)
    (JSON_stringify : Json -> string) (acc : Account) :
  isAuthenticated (authManager acc) = true ->
  distinct (favoriteSet acc) = true ->
  JSON_parse (JSON_stringify (JArr (favoriteSet acc))) = Some (JArr (favoriteSet acc)) ->
  nonempty (JSON_stringify (JArr (favoriteSet acc))) = true ->
  let saved := saveFavorites JSON_stringify acc in
  favoriteSet (FavoritesManager_new JSON_parse (authManager acc) (localStorage saved))
    = favoriteSet acc /\
  reloadFavorites JSON_parse saved = saved.
Proof.
  intros Ha Hd Hp Hn saved. subst saved.
  assert (Hnull : exists u, authManager acc = Some u /\ is_null u = false).
  { unfold isAuthenticated in Ha. destruct (authManager acc) as [u|]; [|discriminate].
    exists u. split; [reflexivity|]. apply negb_true_iff, Ha. }
  destruct Hnull as (u & Hu & Hnu).
  assert (Hload : forall favs,
    loadFavorites JSON_parse (Some u) favs
      (<[favorites_key (Some u) := JSON_stringify (JArr (favoriteSet acc))]> (localStorage acc))
    = (favoriteSet acc,
       <[favorites_key (Some u) := JSON_stringify (JArr (favoriteSet acc))]> (localStorage acc))).
  { intros favs. unfold loadFavorites. rewrite Hnu.
    change ("favorites_" +:+ template (get_field "id" u)) with (favorites_key (Some u)).
    rewrite lookup_insert_eq, Hn, Hp. simpl.
    rewrite (fold_add_id (favoriteSet acc) [] Hd). reflexivity. }
  unfold FavoritesManager_new, reloadFavorites, saveFavorites. rewrite Ha.
  cbn [authManager favoriteSet localStorage]. rewrite Hu, !Hload.
  split; reflexivity.
Qed.

Lemma favorites_survive_reload_witness :
  favoriteSet
    (FavoritesManager_new parse_sample (Some sample_user)
       (localStorage (snd (addFavorite stringify_sample (JNum 8) member_account))))
  = [JNum 7; JNum 8].
Proof.
  apply (favorites_survive_reload parse_sample stringify_sample
           {| authManager := Some sample_user; favoriteSet := [JNum 7; JNum 8];
              localStorage := ∅ |}); reflexivity.
Defined.

(** The set of favourites never holds a movie twice: not after it is loaded,
    whatever array the store holds, and not after a movie is added, removed
    or toggled. *)
Theorem favorites_never_repeat (JSON_parse : string -> option Json)
    (JSON_stringify : Json -> string) (auth : option Json)
    (store : gmap string string) (movieId : Json) (acc : Account) :
  distinct (favoriteSet (FavoritesManager_new JSON_parse auth store)) = true /\
  (distinct (favoriteSet acc) = true ->
     distinct (favoriteSet (reloadFavorites JSON_parse acc)) = true /\
     distinct (favoriteSet (snd (addFavorite JSON_stringify movieId acc))) = true /\
     distinct (favoriteSet (removeFavorite JSON_stringify movieId acc)) = true /\
     distinct (favoriteSet (toggleFavorite JSON_stringify movieId acc)) = true).
Proof.
  assert (Hload : forall a favs st, distinct favs = true ->
            distinct (fst (loadFavorites JSON_parse a favs st)) = true).
  { intros a favs st Hf. unfold loadFavorites.
    destruct a as [u|]; [|reflexivity]. destruct (is_null u); [reflexivity|].
    destruct (st !! _) as [saved|]; [|exact Hf].
    destruct (nonempty saved); [|exact Hf].
    destruct (JSON_parse saved) as [v|]; [|reflexivity].
    destruct v; simpl; try reflexivity; apply fold_add_distinct; reflexivity. }
  assert (Hre : forall a, distinct (favoriteSet a) = true ->
            distinct (favoriteSet (reloadFavorites JSON_parse a)) = true).
  { intros a Hf. unfold reloadFavorites.
    pose proof (Hload (authManager a) (favoriteSet a) (localStorage a) Hf) as H.
    destruct (loadFavorites _ _ _ _) as [favs st]. exact H. }
  assert (Hadd : distinct (favoriteSet acc) = true ->
            distinct (favoriteSet (snd (addFavorite JSON_stringify movieId acc))) = true).
  { intros Hf. unfold addFavorite, saveFavorites.
    destruct (isAuthenticated (authManager acc)) eqn:Ha; simpl; [|exact Hf].
    rewrite Ha. simpl. apply distinct_add, Hf. }
  assert (Hrm : distinct (favoriteSet acc) = true ->
            distinct (favoriteSet (removeFavorite JSON_stringify movieId acc)) = true).
  { intros Hf. unfold removeFavorite, saveFavorites. simpl.
    destruct (isAuthenticated (authManager acc)); simpl; apply distinct_delete, Hf. }
  split; [apply Hre; reflexivity|].
  intros Hf. split; [apply Hre, Hf|]. split; [apply Hadd, Hf|]. split; [apply Hrm, Hf|].
  unfold toggleFavorite. destruct (isFavorite movieId acc); [apply Hrm | apply Hadd]; exact Hf.
Qed.

Lemma favorites_never_repeat_witness :
  distinct (favoriteSet (snd (addFavorite stringify_sample (JNum 7) member_account))) = true /\
  favoriteSet (snd (addFavorite stringify_sample (JNum 7) member_account)) = [JNum 7].
Proof.
  split; [|reflexivity].
  apply (favorites_never_repeat parse_sample stringify_sample None ∅ (JNum 7) member_account).
  reflexivity.
Defined.

Lemma favorites_key_not_session auth : favorites_key auth <> "cinescope_user".
Proof. unfold favorites_key. simpl. discriminate. Qed.

(** [logout] removes the session and empties the set in memory, and after it
    nothing can be added; but it leaves the favourites that the store holds
    for the user: [clearFavorites] removes that record only while a user with
    a truthy id is signed in, and [logout] calls it after the user has been
    set to [null]. *)
Theorem logout_keeps_stored_favorites (JSON_stringify : Json -> string)
    (movieId : Json) (acc : Account) :
  let out := logout acc in
  isAuthenticated (authManager out) = false /\
  localStorage out !! "cinescope_user" = None /\
  favoriteSet out = [] /\
  localStorage out !! favorites_key (authManager acc)
    = localStorage acc !! favorites_key (authManager acc) /\
  addFavorite JSON_stringify movieId out = (false, out) /\
  (truthy_opt (userId (authManager acc)) = true ->
     localStorage (clearFavorites acc) !! favorites_key (authManager acc) = None).
Proof.
  cbv zeta. unfold logout, clearFavorites. simpl.
  split; [reflexivity|]. split; [apply lookup_delete_eq|]. split; [reflexivity|].
  split; [apply lookup_delete_ne; intros H; symmetry in H;
          exact (favorites_key_not_session _ H)|].
  split; [reflexivity|].
  intros Ht. rewrite Ht. apply lookup_delete_eq.
Qed.

Lemma logout_keeps_stored_favorites_witness :
  let acc := snd (addFavorite stringify_sample (JNum 8) member_account) in
  localStorage (logout acc) !! "favorites_1" = Some "[7,8]" /\
  favoriteSet (logout acc) = [] /\
  localStorage (clearFavorites acc) !! "favorites_1" = None.
Proof.
  intros acc.
  destruct (logout_keeps_stored_favorites stringify_sample (JNum 8) acc)
    as (_ & _ & H3 & H4 & _ & H6).
  split; [etransitivity; [exact H4 | reflexivity]|].
  split; [exact H3|]. apply H6. reflexivity.
Defined.

(** ** The page: what always holds *)

(** From [new UIManager()] on, through every sequence of events,
    [isLoading] is true exactly while a load is suspended, so that no second
    load ever starts beside it, and the page number is at least 1. *)
Theorem page_always_consistent (t : Z) (a : MovieAPI.t) (user : Json) (favs : list Json)
    (es : list (Z * Event)) :
  let w := run es (UIManager_new t a user favs) in
  (isLoading (ui w) = true <-> is_Some (awaiting w)) /\ 1 <= currentPage (ui w).
Proof. apply consistent_run, (consistent_run [] _ (consistent_new t a user favs [])). Qed.

Lemma performSearch_timers q w :
  timers (performSearch q w) = timers w /\ next_timer (performSearch q w) = next_timer w /\
  searchTimeout (ui (performSearch q w)) = searchTimeout (ui w).
Proof.
  unfold performSearch.
  match goal with |- context [loadMovies ?x] =>
    destruct (same_timers_loadMovies x) as (H1 & H2 & H3 & _) end.
  rewrite H1, H2, H3. auto.
Qed.

Lemma one_timer_same w w' : same_timers w w' -> one_timer w -> one_timer w'.
Proof.
  intros (H1 & H2 & H3 & _) [Hn Ht]. unfold one_timer. rewrite H1, H2, H3. auto.
Qed.

Lemma one_timer_step w te : one_timer w -> one_timer (step w te).
Proof.
  intros Hw. destruct te as [t e].
  assert (Hn : one_timer (with_now t w)) by exact Hw.
  unfold step. simpl. set (w0 := with_now t w) in *. clearbody w0. clear Hw w.
  destruct e as [c|x|id| | | | |url r]; simpl.
  - eapply one_timer_same; [apply same_timers_switchCategory | exact Hn].
  - destruct Hn as [Hpos Ht]. unfold one_timer, handleSearch. simpl.
    split; [lia|]. right.
    exists {| timer_id := next_timer w0; deadline := now w0 + 300; timer_query := x |}.
    split; [|split; [reflexivity | exact Hpos]].
    destruct Ht as [Ht|(tm & Ht & Hs & Hid)]; rewrite Ht.
    + destruct (searchTimeout (ui w0)) as [id|]; [destruct (id =? 0)|]; reflexivity.
    + rewrite Hs. destruct (Z.eqb_spec (timer_id tm) 0); [lia|].
      unfold clearTimeout. simpl. rewrite Z.eqb_refl. reflexivity.
  - unfold fire. destruct (find_timer id (timers w0)) as [tm|] eqn:Ef; [|exact Hn].
    destruct (deadline tm <=? now w0); [|exact Hn].
    destruct (performSearch_timers (timer_query tm)
                (with_timers (clearTimeout id (timers w0)) (next_timer w0) w0))
      as (H1 & H2 & H3).
    destruct Hn as [Hpos Ht]. unfold one_timer. rewrite H1, H2, H3. simpl.
    split; [exact Hpos|]. left.
    destruct Ht as [Ht|(tm' & Ht & _)]; rewrite Ht in *; [reflexivity|].
    unfold find_timer in Ef. simpl in Ef. unfold clearTimeout. simpl.
    destruct (timer_id tm' =? id); [reflexivity | discriminate].
  - eapply one_timer_same; [apply same_timers_loadMoreMovies | exact Hn].
  - eapply one_timer_same; [apply same_timers_loadMoreMovies | exact Hn].
  - eapply one_timer_same; [apply same_timers_loadMovies | exact Hn].
  - eapply one_timer_same; [apply same_timers_settle | exact Hn].
  - eapply one_timer_same; [apply same_timers_respond | exact Hn].
Qed.

Lemma one_timer_run es : forall w, one_timer w -> one_timer (run es w).
Proof.
  induction es as [|te es IH]; intros w Hw; [exact Hw|]. apply IH, one_timer_step, Hw.
Qed.

(** From [new UIManager()] on, through every sequence of keystrokes, timer
    expiries and other events, at most one search commit is scheduled at any
    moment, and it is the one whose handle [searchTimeout] holds. *)
Theorem one_commit_scheduled (t : Z) (a : MovieAPI.t) (user : Json) (favs : list Json)
    (es : list (Z * Event)) :
  let w := run es (UIManager_new t a user favs) in
  (length (timers w) <= 1)%nat /\
  forall tm, In tm (timers w) -> searchTimeout (ui w) = Some (timer_id tm).
Proof.
  cbv zeta.
  assert (H0 : one_timer (UIManager_new t a user favs)).
  { unfold UIManager_new. eapply one_timer_same; [apply same_timers_loadMovies|].
    split; simpl; [lia | left; reflexivity]. }
  destruct (one_timer_run es _ H0) as [_ [Ht|(tm & Ht & Hs & _)]]; rewrite Ht; simpl.
  - split; [lia | intros tm []].
  - split; [lia|]. intros tm' [<-|[]]. exact Hs.
Qed.

(** ** The load-more button and the error panel *)

Lemma loadMovies_dom w :
  loadMoreHidden (dom (loadMovies w)) = loadMoreHidden (dom w) /\
  (isLoading (ui w) = false -> isLoading (ui (loadMovies w)) = true ->
   errorHidden (dom (loadMovies w)) = true).
Proof.
  unfold loadMovies. destruct (isLoading (ui w)) eqn:El; [split; [reflexivity | discriminate]|].
  cbv zeta. set (w1 := hideError (setLoadingState true w)).
  assert (Hd : loadMoreHidden (dom w1) = loadMoreHidden (dom w) /\ errorHidden (dom w1) = true).
  { subst w1. unfold setLoadingState. destruct (true && _); split; reflexivity. }
  destruct Hd as [Hm He]. clearbody w1.
  destruct (nonempty (currentSearchQuery (ui w1))).
  - destruct (MovieAPI.searchMovies _ _ _ _) as [st a].
    match goal with |- context [suspend st ?x] =>
      destruct (suspend_spec st x) as (_ & H2 & _) end.
    rewrite H2. simpl. auto.
  - destruct (String.eqb (currentCategory (ui w1)) "favorites").
    + match goal with |- context [getFavoriteMovies ?x] =>
        destruct (getFavoriteMovies_spec x) as (_ & H2 & _) end.
      rewrite H2. simpl. auto.
    + destruct (apiMethods (currentCategory (ui w1))) as [m|].
      * destruct (call_method _ _ _ _) as [st a].
        match goal with |- context [suspend st ?x] =>
          destruct (suspend_spec st x) as (_ & H2 & _) end.
        rewrite H2. simpl. auto.
      * rewrite ui_setLoadingState. unfold setLoadingState. simpl.
        split; [exact Hm | discriminate].
Qed.

(** The end of a load, in all its cases, for the button and the panel. *)
Lemma loadMovies_resume_dom r w :
  isLoading (ui w) = true ->
  (loadMoreHidden (dom (loadMovies_resume r w)) = true
   \/ loadMoreHidden (dom (loadMovies_resume r w)) = loadMoreHidden (dom w)) /\
  isLoading (ui (loadMovies_resume r w)) = false.
Proof.
  intros El. unfold loadMovies_resume, setLoadingState, renderMovies. simpl.
  destruct r as [response|message]; [|auto].
  destruct (results_of response) as [results|]; [|auto].
  destruct (_ && _); [destruct (_ =? _); simpl; rewrite El, andb_false_r; auto|].
  destruct results; try (destruct (_ =? _); simpl; auto).
  all: destruct (append_cards _ _) as [g [|]]; simpl; try rewrite El, andb_false_r; auto.
Qed.

(** A successful end of a load: the fields, the button and the panel. *)
Lemma loadMovies_resume_success response items w :
  results_of response = Some (JArr items) -> renderable items = true ->
  ui (loadMovies_resume (inl response) w)
    = set_isLoading false
        (set_hasMorePages (lt_js (currentPage (ui w)) (get_field "total_pages" response))
           (ui w)) /\
  loadMoreHidden (dom (loadMovies_resume (inl response) w))
    = negb (lt_js (currentPage (ui w)) (get_field "total_pages" response)
            && negb (isLoading (ui w))) /\
  errorHidden (dom (loadMovies_resume (inl response) w)) = errorHidden (dom w).
Proof.
  intros Hres Hr. unfold loadMovies_resume. rewrite Hres. unfold renderMovies.
  destruct (currentPage (ui w) =? 1) eqn:Ep.
  - destruct items as [|m items].
    + simpl. unfold setLoadingState. simpl. auto.
    + cbn [length_is_zero andb].
      pose proof (append_cards_renderable (m :: items) [] Hr) as Ha.
      cbn [moviesGrid dom set_grid with_dom]. rewrite Ha.
      unfold setLoadingState. simpl. auto.
  - rewrite andb_false_r. rewrite append_cards_renderable by exact Hr.
    unfold setLoadingState. simpl. auto.
Qed.

Lemma never_shown_step w te :
  consistent w -> loadMoreHidden (dom w) = true -> loadMoreHidden (dom (step w te)) = true.
Proof.
  intros [Hl _] Hh. destruct te as [t e]. unfold step. simpl.
  change (isLoading (ui w)) with (isLoading (ui (with_now t w))) in Hl.
  change (awaiting w) with (awaiting (with_now t w)) in Hl.
  change (dom w) with (dom (with_now t w)) in Hh.
  set (w0 := with_now t w) in *. clearbody w0.
  assert (Hres : forall r w1, ui w1 = ui w0 -> dom w1 = dom w0 -> is_Some (awaiting w0) ->
            loadMoreHidden (dom (loadMovies_resume r w1)) = true).
  { intros r w1 Hu Hd Ha.
    destruct (loadMovies_resume_dom r w1) as [[H|H] _];
      [rewrite Hu; apply Hl, Ha | exact H | rewrite H, Hd; exact Hh]. }
  destruct e as [c|x|id| | | | |url r]; simpl.
  - unfold switchCategory. destruct (_ && _); [exact Hh|].
    rewrite (proj1 (loadMovies_dom _)). reflexivity.
  - exact Hh.
  - unfold fire. destruct (find_timer id (timers w0)); [|exact Hh].
    destruct (_ <=? _); [|exact Hh]. unfold performSearch.
    rewrite (proj1 (loadMovies_dom _)). reflexivity.
  - unfold loadMoreMovies. destruct (_ || _); [exact Hh|].
    rewrite (proj1 (loadMovies_dom _)). exact Hh.
  - unfold loadMoreMovies. destruct (_ || _); [exact Hh|].
    rewrite (proj1 (loadMovies_dom _)). exact Hh.
  - rewrite (proj1 (loadMovies_dom _)). exact Hh.
  - unfold settle. destruct (awaiting w0) as [[r|url|slots]|] eqn:Ea; try exact Hh.
    apply Hres; [reflexivity | reflexivity | eauto].
  - unfold respond. destruct (awaiting w0) as [[r0|url0|slots]|] eqn:Ea; try exact Hh.
    + destruct (String.eqb url url0); [|exact Hh].
      destruct (MovieAPI.fetchData_resume _ _ _ _) as [res a].
      apply Hres; [reflexivity | reflexivity | eauto].
    + destruct (answer_slot _ _ _ _ _) as [[slots' a]|]; [|exact Hh].
      destruct (all_settled slots'); [|exact Hh].
      apply Hres; [reflexivity | reflexivity | eauto].
Qed.

(** The controller never shows the load-more button.  A load that ends well
    hides it even when more pages remain, because it sets the button while
    [isLoading] is still true; and no event brings a hidden button back. *)
Theorem loadMore_button_never_shown (w : World) (te : Z * Event) :
  consistent w ->
  (loadMoreHidden (dom w) = true -> loadMoreHidden (dom (step w te)) = true) /\
  (forall (response : Json) (items : list Json),
     delivers te (inl response) w ->
     results_of response = Some (JArr items) -> renderable items = true ->
     loadMoreHidden (dom (step w te)) = true).
Proof.
  intros Hc. split; [apply never_shown_step, Hc|].
  intros response items Hdel Hres Hr.
  assert (Ha : is_Some (awaiting w)).
  { destruct Hdel as [(_ & Ha)|[(url & body & _ & Ha & _)|[(url & _ & Ha & _)
          |(url & http & slots & slots' & a & movies & _ & Ha & _)]]]; rewrite Ha; eauto. }
  destruct (delivers_step _ _ _ Hdel) as (w0 & -> & Hu & _).
  destruct (loadMovies_resume_success response items w0 Hres Hr) as (_ & H & _).
  rewrite H, Hu. destruct Hc as [Hl _]. rewrite (proj2 Hl Ha). simpl.
  rewrite andb_false_r. reflexivity.
Qed.

Lemma loadMore_button_never_shown_witness :
  hasMorePages (ui page_idle) = true /\ loadMoreHidden (dom page_idle) = true /\
  loadMoreHidden (dom (step page_idle (2000, Click_filter "popular"))) = true.
Proof.
  assert (Hc : consistent page_opened).
  { split; [split; [intros _; eexists; reflexivity | reflexivity] | vm_compute; discriminate]. }
  destruct (loadMore_button_never_shown page_opened
              (1200, Response (trending_url 1) (MovieAPI.HttpOk trending_page)) Hc)
    as [_ H].
  assert (Hidle : loadMoreHidden (dom page_idle) = true).
  { apply (H trending_page [movie 1 "Alien"; movie 2 "Brazil"]); [|reflexivity|reflexivity].
    right. left. exists (trending_url 1), trending_page. repeat split; reflexivity. }
  split; [reflexivity|]. split; [exact Hidle|].
  apply (loadMore_button_never_shown page_idle (2000, Click_filter "popular")).
  - split; [split; [discriminate | intros [x Hx]; discriminate] | vm_compute; discriminate].
  - exact Hidle.
Defined.

Lemma no_error_loadMovies w :
  no_error_while_loading w -> no_error_while_loading (loadMovies w).
Proof.
  intros Hw. destruct (isLoading (ui w)) eqn:El.
  - rewrite loadMovies_while_loading by exact El. exact Hw.
  - intros Hl. apply (proj2 (loadMovies_dom w) El Hl).
Qed.

Lemma no_error_step w te :
  consistent w -> no_error_while_loading w -> no_error_while_loading (step w te).
Proof.
  intros [Hl _] Hw. destruct te as [t e]. unfold step. simpl.
  change (isLoading (ui w)) with (isLoading (ui (with_now t w))) in Hl.
  change (awaiting w) with (awaiting (with_now t w)) in Hl.
  assert (Hw0 : no_error_while_loading (with_now t w)) by exact Hw.
  set (w0 := with_now t w) in *. clearbody w0. clear Hw w.
  assert (Hres : forall r w1, ui w1 = ui w0 -> is_Some (awaiting w0) ->
            no_error_while_loading (loadMovies_resume r w1)).
  { intros r w1 Hu Ha Hload.
    destruct (loadMovies_resume_dom r w1) as [_ H]; [rewrite Hu; apply Hl, Ha|].
    rewrite H in Hload. discriminate. }
  destruct e as [c|x|id| | | | |url r]; simpl.
  - unfold switchCategory. destruct (_ && _); [exact Hw0|].
    apply no_error_loadMovies. exact Hw0.
  - exact Hw0.
  - unfold fire. destruct (find_timer id (timers w0)); [|exact Hw0].
    destruct (_ <=? _); [|exact Hw0]. apply no_error_loadMovies. exact Hw0.
  - unfold loadMoreMovies. destruct (_ || _); [exact Hw0|].
    apply no_error_loadMovies. exact Hw0.
  - unfold loadMoreMovies. destruct (_ || _); [exact Hw0|].
    apply no_error_loadMovies. exact Hw0.
  - apply no_error_loadMovies. exact Hw0.
  - unfold settle. destruct (awaiting w0) as [[r|url|slots]|] eqn:Ea; try exact Hw0.
    apply Hres; [reflexivity | eauto].
  - unfold respond. destruct (awaiting w0) as [[r0|url0|slots]|] eqn:Ea; try exact Hw0.
    + destruct (String.eqb url url0); [|exact Hw0].
      destruct (MovieAPI.fetchData_resume _ _ _ _) as [res a].
      apply Hres; [reflexivity | eauto].
    + destruct (answer_slot _ _ _ _ _) as [[slots' a]|]; [|exact Hw0].
      destruct (all_settled slots'); [|exact Hw0].
      apply Hres; [reflexivity | eauto].
Qed.

Lemma no_error_run es : forall w,
  consistent w -> no_error_while_loading w ->
  consistent (run es w) /\ no_error_while_loading (run es w).
Proof.
  induction es as [|te es IH]; intros w Hc Hw; [auto|].
  apply IH; [apply consistent_step, Hc | apply no_error_step; assumption].
Qed.

(** From [new UIManager()] on, no error is on display while a load is on its
    way: starting a load hides the panel and nothing shows it before the load
    ends.  So when the load ends well, the page shows no error. *)
Theorem no_error_shown_while_loading (t : Z) (a : MovieAPI.t) (user : Json)
    (favs : list Json) (es : list (Z * Event)) :
  let w := run es (UIManager_new t a user favs) in
  (isLoading (ui w) = true -> errorHidden (dom w) = true) /\
  (forall (te : Z * Event) (response : Json) (items : list Json),
     delivers te (inl response) w ->
     results_of response = Some (JArr items) -> renderable items = true ->
     errorHidden (dom (step w te)) = true).
Proof.
  cbv zeta.
  assert (H0 : consistent (UIManager_new t a user favs)
               /\ no_error_while_loading (UIManager_new t a user favs)).
  { split; [apply (consistent_new t a user favs [])|].
    unfold UIManager_new. apply no_error_loadMovies. intros H. discriminate H. }
  destruct (no_error_run es _ (proj1 H0) (proj2 H0)) as [[Hl _] Hw].
  split; [exact Hw|].
  intros te response items Hdel Hres Hr.
  assert (Ha : is_Some (awaiting (run es (UIManager_new t a user favs)))).
  { destruct Hdel as [(_ & Ha)|[(url & body & _ & Ha & _)|[(url & _ & Ha & _)
          |(url & http & slots & slots' & a' & movies & _ & Ha & _)]]]; rewrite Ha; eauto. }
  destruct (delivers_step _ _ _ Hdel) as (w0 & -> & _ & Hd & _).
  destruct (loadMovies_resume_success response items w0 Hres Hr) as (_ & _ & H).
  rewrite H, Hd. apply Hw, Hl, Ha.
Qed.

Lemma no_error_shown_while_loading_witness :
  errorHidden
    (dom (run [(1200, Response (trending_url 1) (MovieAPI.HttpOk trending_page));
               (2000, Click_loadMore);
               (2500, Response (trending_url 2) MovieAPI.HttpFail);
               (2600, Click_retry)] (UIManager_new 1000 api0 JNull []))) = true.
Proof.
  apply (proj1 (no_error_shown_while_loading 1000 api0 JNull []
           [(1200, Response (trending_url 1) (MovieAPI.HttpOk trending_page));
            (2000, Click_loadMore);
            (2500, Response (trending_url 2) MovieAPI.HttpFail);
            (2600, Click_retry)])).
  vm_compute. reflexivity.
Defined.

(** ** Pagination *)

(** A load that ends well sets [hasMorePages] to whether the page lies below
    the [total_pages] of the answer.  On the last page, or past it, it is
    false, and then neither the button nor the scroll sentinel loads
    anything: the state stays as it is. *)
Theorem pagination_stops_at_last_page (w : World) (te : Z * Event)
    (response : Json) (items : list Json) (n : Z) :
  delivers te (inl response) w ->
  results_of response = Some (JArr items) -> renderable items = true ->
  get_field "total_pages" response = Some (JNum n) ->
  let w' := step w te in
  hasMorePages (ui w') = (currentPage (ui w) <? n) /\
  currentPage (ui w') = currentPage (ui w) /\
  (n <= currentPage (ui w) ->
   forall t : Z,
     step w' (t, Click_loadMore) = with_now t w' /\
     step w' (t, Scroll_sentinel) = with_now t w').
Proof.
  intros Hdel Hres Hr Hn w'. subst w'.
  destruct (delivers_step _ _ _ Hdel) as (w0 & -> & Hu & _).
  destruct (loadMovies_resume_success response items w0 Hres Hr) as (Hui & _).
  rewrite Hn, Hu in Hui. set (w2 := loadMovies_resume (inl response) w0) in *.
  clearbody w2. rewrite Hui. simpl. split; [reflexivity|]. split; [reflexivity|].
  intros Hle t. unfold step. simpl. unfold loadMoreMovies.
  change (ui (with_now t w2)) with (ui w2). rewrite Hui. simpl.
  destruct (Z.ltb_spec (currentPage (ui w)) n); [lia|]. split; reflexivity.
Qed.

Lemma pagination_stops_at_last_page_witness :
  hasMorePages
    (ui (step (loadMoreMovies page_idle)
           (2500, Response (trending_url 2)
                    (MovieAPI.HttpOk (page_of [movie 3 "Casablanca"] 2 2))))) = false.
Proof.
  assert (Hdel : delivers (2500, Response (trending_url 2)
                                   (MovieAPI.HttpOk (page_of [movie 3 "Casablanca"] 2 2)))
                   (inl (page_of [movie 3 "Casablanca"] 2 2)) (loadMoreMovies page_idle)).
  { right. left. exists (trending_url 2), (page_of [movie 3 "Casablanca"] 2 2).
    repeat split; reflexivity. }
  pose proof (pagination_stops_at_last_page (loadMoreMovies page_idle) _ _
                [movie 3 "Casablanca"] 2 Hdel eq_refl eq_refl eq_refl) as H.
  exact (proj1 H).
Defined.

(** ** Clearing the search *)

(** Committing an empty search, or one of white space only (any white space
    that [trim] removes, the no-break space among it), on a page that is not
    loading clears the search text and loads the first page of the current
    category again: the descriptor issued is the one of the category, not a
    search. *)
Theorem blank_commit_returns_to_category (q : string) (w : World) (method : string) :
  is_blank q = true -> isLoading (ui w) = false ->
  apiMethods (currentCategory (ui w)) = Some method ->
  let w1 := performSearch q w in
  currentSearchQuery (ui w1) = "" /\ currentPage (ui w1) = 1 /\
  currentCategory (ui w1) = currentCategory (ui w) /\
  exists urls,
    journal w1 = journal w ++ Call_performSearch q
                   :: Call_category method 1 :: map Net_fetch urls.
Proof.
  intros Hb El Hm w1. subst w1. apply trim_blank in Hb. unfold performSearch.
  match goal with |- context [loadMovies ?x] => set (w0 := x) end.
  destruct (ui_loadMovies w0) as [b Hb'].
  destruct (loadMovies_issues w0 (Call_category method 1)) as (_ & _ & urls & Hj).
  { exact El. }
  { unfold spec_descriptor. subst w0. simpl. rewrite Hb. simpl.
    assert (Hf : String.eqb (currentCategory (ui w)) "favorites" = false).
    { apply String.eqb_neq. intros Hc. rewrite Hc in Hm. discriminate Hm. }
    rewrite Hf, Hm. reflexivity. }
  rewrite Hb', Hj. subst w0. simpl. rewrite Hb.
  split; [reflexivity|]. split; [reflexivity|]. split; [reflexivity|].
  exists urls. rewrite <- app_assoc. reflexivity.
Qed.

Lemma blank_commit_returns_to_category_witness :
  exists urls,
    journal (performSearch (no_break_space +:+ " ") page_idle)
    = journal page_idle ++ Call_performSearch (no_break_space +:+ " ")
        :: Call_category "getTrendingMovies" 1 :: map Net_fetch urls.
Proof.
  apply (blank_commit_returns_to_category (no_break_space +:+ " ") page_idle
           "getTrendingMovies"); reflexivity.
Defined.

(** ** Favourites with nothing to show *)

(** Picking the favourites while signed out, or with no favourite, on a page
    that is not loading asks the network nothing; the load settles at once
    with an empty single page, and when it is taken up the grid shows the
    empty state, no error, and [hasMorePages] is false. *)
Theorem favorites_empty_state (w : World) (t : Z) :
  isLoading (ui w) = false ->
  currentCategory (ui w) <> "favorites" \/ currentSearchQuery (ui w) <> "" ->
  is_null (currentUser w) = true \/ favorites w = [] ->
  let w1 := switchCategory "favorites" w in
  journal w1 = journal w ++ [Call_getFavoriteMovies] /\
  api w1 = api w /\
  awaiting w1 = Some (AwSettled (inl (favorites_response []))) /\
  let w2 := step w1 (t, Settled) in
  moviesGrid (dom w2) = [EmptyState] /\ errorHidden (dom w2) = true /\
  hasMorePages (ui w2) = false /\ isLoading (ui w2) = false /\
  journal w2 = journal w1.
Proof.
  intros El Hpre Hempty w1.
  assert (Hg : String.eqb "favorites" (currentCategory (ui w))
               && negb (nonempty (currentSearchQuery (ui w))) = false).
  { destruct Hpre as [Hc|Hs].
    - apply not_eq_sym, String.eqb_neq in Hc. rewrite Hc. reflexivity.
    - destruct (currentSearchQuery (ui w)); [congruence|]. simpl. apply andb_false_r. }
  assert (Hw1 : w1 = loadMovies (clearMoviesGrid (with_ui
            {| currentPage := 1; currentCategory := "favorites"; currentSearchQuery := "";
               isLoading := isLoading (ui w); hasMorePages := true;
               searchTimeout := searchTimeout (ui w) |} w))).
  { subst w1. unfold switchCategory. rewrite Hg. reflexivity. }
  clearbody w1. subst w1.
  match goal with |- context [loadMovies ?x] => set (w0 := x) end.
  destruct (loadMovies_favorites w0 eq_refl eq_refl El) as (H1 & H2 & H3).
  assert (Hids : (if is_null (currentUser w0) then [] else favorites w0) = []).
  { subst w0. simpl. destruct Hempty as [H|H]; rewrite H; [reflexivity|].
    destruct (is_null (currentUser w)); reflexivity. }
  rewrite Hids in H1, H2, H3. simpl in H1, H2, H3.
  destruct (ui_loadMovies w0) as [b Hb].
  destruct (loadMovies_dom w0) as [_ He].
  destruct (loadMovies_issues w0 Call_getFavoriteMovies El eq_refl) as (Hl & _).
  specialize (He El Hl).
  split; [rewrite H2; reflexivity|]. split; [rewrite H1; reflexivity|].
  split; [exact H3|].
  set (w1 := loadMovies w0) in *. clearbody w1. cbv zeta.
  unfold step. simpl. unfold settle. simpl. rewrite H3.
  destruct (loadMovies_resume_success (favorites_response []) [] (with_awaiting None (with_now t w1))
              eq_refl eq_refl) as (Hui & _ & Herr).
  destruct (loadMovies_resume_replaces (favorites_response []) [] (with_awaiting None (with_now t w1)))
    as [Hgrid _]; [simpl; rewrite Hb; reflexivity | reflexivity | reflexivity |].
  destruct (loadMovies_resume_frame (inl (favorites_response []))
              (with_awaiting None (with_now t w1))) as (Hj & _).
  rewrite Hgrid, Herr, Hui, Hj. simpl. rewrite Hb. simpl. auto.
Qed.

Lemma favorites_empty_state_witness :
  moviesGrid (dom (step (switchCategory "favorites" page_idle) (2100, Settled)))
    = [EmptyState] /\
  journal (switchCategory "favorites" page_idle)
    = journal page_idle ++ [Call_getFavoriteMovies].
Proof.
  assert (Hl : isLoading (ui page_idle) = false) by (vm_compute; reflexivity).
  assert (Hc : currentCategory (ui page_idle) <> "favorites" \/
               currentSearchQuery (ui page_idle) <> "")
    by (left; vm_compute; discriminate).
  assert (Hu : is_null (currentUser page_idle) = true \/ favorites page_idle = [])
    by (left; vm_compute; reflexivity).
  pose proof (favorites_empty_state page_idle 2100 Hl Hc Hu) as H.
  split; [exact (proj1 (proj2 (proj2 (proj2 H)))) | exact (proj1 H)].
Defined.

(** ** A movie that cannot be drawn *)

Lemma append_cards_stops good bad rest : forall grid,
  renderable good = true -> createMovieCard bad = None ->
  append_cards (good ++ bad :: rest) grid = (grid ++ map MovieCard good, true).
Proof.
  induction good as [|m good IH]; intros grid Hr Hb; simpl in *.
  - rewrite Hb, app_nil_r. reflexivity.
  - apply andb_prop in Hr as [Hm Hr].
    assert (Hc : createMovieCard m = Some (MovieCard m)).
    { unfold createMovieCard in *. destruct m; try discriminate;
        repeat (match goal with |- context [match ?x with _ => _ end] => destruct x end);
        try reflexivity; try discriminate. }
    rewrite Hc, IH by assumption. rewrite <- app_assoc. reflexivity.
Qed.

(** When the answer holds a movie whose card cannot be made ([null], or a
    rating that is not a number), the cards of the movies before it are on
    display, those after it are not, the error panel shows, [isLoading] is
    cleared and [hasMorePages] keeps its value of before. *)
Theorem card_error_keeps_earlier_cards (w : World) (te : Z * Event) (response : Json)
    (good rest : list Json) (bad : Json) :
  delivers te (inl response) w ->
  results_of response = Some (JArr (good ++ bad :: rest)) ->
  renderable good = true -> createMovieCard bad = None ->
  let w' := step w te in
  moviesGrid (dom w')
    = (if currentPage (ui w) =? 1 then [] else moviesGrid (dom w)) ++ map MovieCard good /\
  errorHidden (dom w') = false /\ errorMessage (dom w') = type_error /\
  ui w' = set_isLoading false (ui w).
Proof.
  intros Hdel Hres Hr Hb w'. subst w'.
  destruct (delivers_step _ _ _ Hdel) as (w0 & -> & Hu & Hd & _).
  unfold loadMovies_resume. rewrite Hres. unfold renderMovies.
  assert (Hz : length_is_zero (JArr (good ++ bad :: rest)) = false)
    by (destruct good; reflexivity).
  rewrite Hz. cbn [andb]. rewrite Hu.
  destruct (currentPage (ui w) =? 1) eqn:Ep.
  - cbn [moviesGrid dom set_grid with_dom].
    rewrite (append_cards_stops good bad rest [] Hr Hb).
    unfold setLoadingState. simpl. rewrite Hu. auto.
  - rewrite (append_cards_stops good bad rest _ Hr Hb).
    unfold setLoadingState. simpl. rewrite Hu, Hd. auto.
Qed.

Lemma card_error_keeps_earlier_cards_witness :
  moviesGrid
    (dom (step page_opened
            (1200, Response (trending_url 1)
                     (MovieAPI.HttpOk (page_of [movie 1 "Alien"; JNull; movie 2 "Brazil"] 3 1)))))
  = [MovieCard (movie 1 "Alien")].
Proof.
  assert (Hdel : delivers
            (1200, Response (trending_url 1)
                     (MovieAPI.HttpOk (page_of [movie 1 "Alien"; JNull; movie 2 "Brazil"] 3 1)))
            (inl (page_of [movie 1 "Alien"; JNull; movie 2 "Brazil"] 3 1)) page_opened).
  { right. left. eexists _, _. repeat split; reflexivity. }
  pose proof (card_error_keeps_earlier_cards page_opened _ _
                [movie 1 "Alien"] [movie 2 "Brazil"] JNull Hdel eq_refl eq_refl eq_refl) as H.
  exact (proj1 H).
Defined.

(** ** A retry within five minutes *)

Lemma loadMovies_category w method :
  isLoading (ui w) = false -> currentSearchQuery (ui w) = "" ->
  apiMethods (currentCategory (ui w)) = Some method ->
  let sa := call_method method (now w) (currentPage (ui w)) (api w) in
  journal (loadMovies w)
    = journal w ++ Call_category method (currentPage (ui w))
        :: match fst sa with
           | MovieAPI.Waiting url => [Net_fetch url]
           | MovieAPI.Returned _ => []
           end /\
  awaiting (loadMovies w)
    = Some (match fst sa with
            | MovieAPI.Returned v => AwSettled (inl v)
            | MovieAPI.Waiting url => AwFetch url
            end) /\
  api (loadMovies w) = snd sa.
Proof.
  intros El Hq Hm. unfold loadMovies. rewrite El. cbv zeta.
  set (w1 := hideError (setLoadingState true w)).
  assert (Hu : ui w1 = set_isLoading true (ui w)).
  { subst w1. simpl. apply ui_setLoadingState. }
  assert (Hj : journal w1 = journal w /\ api w1 = api w /\ now w1 = now w).
  { subst w1. unfold setLoadingState. destruct (true && _); repeat split; reflexivity. }
  destruct Hj as (Hj & Hapi & Hnow). clearbody w1.
  rewrite Hu. cbn [currentSearchQuery currentCategory currentPage set_isLoading].
  rewrite Hq. cbn [nonempty].
  assert (Hf : String.eqb (currentCategory (ui w)) "favorites" = false).
  { apply String.eqb_neq. intros Hc. rewrite Hc in Hm. discriminate Hm. }
  rewrite Hf, Hm, Hnow, Hapi.
  destruct (call_method method (now w) (currentPage (ui w)) (api w)) as [[v|url] a];
    simpl; rewrite Hj; repeat split; try reflexivity.
  rewrite <- app_assoc. reflexivity.
Qed.

Lemma loadMovies_resume_fields r w :
  currentPage (ui (loadMovies_resume r w)) = currentPage (ui w) /\
  currentCategory (ui (loadMovies_resume r w)) = currentCategory (ui w) /\
  currentSearchQuery (ui (loadMovies_resume r w)) = currentSearchQuery (ui w) /\
  isLoading (ui (loadMovies_resume r w)) = false /\
  now (loadMovies_resume r w) = now w.
Proof.
  unfold loadMovies_resume, setLoadingState, renderMovies. simpl.
  destruct r as [response|message]; [|repeat split; reflexivity].
  destruct (results_of response) as [results|]; [|repeat split; reflexivity].
  destruct (_ && _); [destruct (_ =? _); repeat split; reflexivity|].
  destruct results; try (destruct (_ =? _); repeat split; reflexivity).
  destruct (append_cards _ _) as [g [|]]; destruct (_ =? _); repeat split; reflexivity.
Qed.

Lemma call_method_hit method t1 t2 page body a :
  truthy body = true -> t2 - t1 <= MovieAPI.cacheExpiry ->
  call_method method t2 page
    (MovieAPI.setCache t1 (category_key a method page) body a)
  = (MovieAPI.Returned body, MovieAPI.setCache t1 (category_key a method page) body a).
Proof.
  intros Hb Ht. rewrite call_method_key. unfold MovieAPI.fetchData_start.
  rewrite buildURL_setCache.
  change (MovieAPI.getCacheKey (MovieAPI.buildURL a (category_endpoint method)
            [("page", MovieAPI.PNum page)])) with (category_key a method page).
  cbv zeta. rewrite getCache_setCache.
  destruct (Z.leb_spec (t2 - t1) MovieAPI.cacheExpiry); [|lia]. rewrite Hb. reflexivity.
Qed.

(** A page of a category that the network has answered is answered from the
    cache when it is asked for again within five minutes: the retry button
    then issues the descriptor but no request, and the load is handed the
    stored answer, whatever truthy value it is, with or without results. *)
Theorem retry_served_from_cache (w : World) (method : string) (body : Json) (t1 t2 : Z) :
  isLoading (ui w) = false -> currentSearchQuery (ui w) = "" ->
  apiMethods (currentCategory (ui w)) = Some method ->
  MovieAPI.cache (api w) !! category_key (api w) method (currentPage (ui w)) = None ->
  truthy body = true -> t2 - t1 <= MovieAPI.cacheExpiry ->
  let key := category_key (api w) method (currentPage (ui w)) in
  let w1 := loadMovies w in
  let w2 := step w1 (t1, Response key (MovieAPI.HttpOk body)) in
  let w3 := step w2 (t2, Click_retry) in
  journal w1 = journal w ++ [Call_category method (currentPage (ui w)); Net_fetch key] /\
  awaiting w1 = Some (AwFetch key) /\
  journal w3 = journal w2 ++ [Call_category method (currentPage (ui w))] /\
  awaiting w3 = Some (AwSettled (inl body)).
Proof.
  intros El Hq Hm Hc Hb Ht key w1 w2 w3.
  destruct (loadMovies_category w method El Hq Hm) as (Hj1 & Ha1 & Hapi1).
  rewrite (call_method_miss method (now w) _ (api w) Hc) in Hj1, Ha1, Hapi1.
  simpl in Hj1, Ha1, Hapi1. fold key in Hj1, Ha1. fold w1 in Hj1, Ha1, Hapi1.
  destruct (ui_loadMovies w) as [b Hb1]. fold w1 in Hb1.
  split; [exact Hj1|]. split; [exact Ha1|].
  assert (Hw2 : w2 = loadMovies_resume (inl body)
            (with_awaiting None (with_api (MovieAPI.setCache t1 key body (api w))
               (with_now t1 w1)))).
  { subst w2. unfold step. cbn [fst snd handle]. unfold respond.
    change (awaiting (with_now t1 w1)) with (awaiting w1).
    change (api (with_now t1 w1)) with (api w1).
    change (now (with_now t1 w1)) with t1.
    rewrite Ha1, String.eqb_refl, Hapi1.
    unfold MovieAPI.fetchData_resume. reflexivity. }
  clearbody w1 w2. subst w2.
  match goal with |- context [loadMovies_resume (inl body) ?x] => set (w0 := x) in * end.
  destruct (loadMovies_resume_fields (inl body) w0) as (F1 & F2 & F3 & F4 & _).
  destruct (loadMovies_resume_frame (inl body) w0) as (_ & Fapi & _).
  set (w2 := loadMovies_resume (inl body) w0) in *.
  assert (Fu : currentPage (ui w0) = currentPage (ui w)
               /\ currentCategory (ui w0) = currentCategory (ui w)
               /\ currentSearchQuery (ui w0) = "").
  { subst w0. simpl. rewrite Hb1. simpl. auto. }
  destruct Fu as (G1 & G2 & G3). rewrite G1 in F1. rewrite G2 in F2. rewrite G3 in F3.
  assert (Hapi2 : api w2 = MovieAPI.setCache t1 key body (api w)) by (rewrite Fapi; reflexivity).
  clearbody w2. subst w3. unfold step. simpl.
  destruct (loadMovies_category (with_now t2 w2) method) as (Hj3 & Ha3 & _).
  { exact F4. } { exact F3. } { simpl. rewrite F2. exact Hm. }
  simpl in Hj3, Ha3. rewrite F1, Hapi2 in Hj3, Ha3.
  unfold key in Hj3, Ha3.
  rewrite (call_method_hit method t1 t2 (currentPage (ui w)) body (api w) Hb Ht) in Hj3, Ha3.
  simpl in Hj3, Ha3. split; [exact Hj3 | exact Ha3].
Qed.

Lemma retry_served_from_cache_witness :
  awaiting (run [(1200, Response (trending_url 1) (MovieAPI.HttpOk (JObj [])));
                 (1300, Click_retry)] page_opened)
  = Some (AwSettled (inl (JObj []))).
Proof.
  pose proof (retry_served_from_cache
                {| now := 1000;
                   ui := {| currentPage := 1; currentCategory := "trending";
                            currentSearchQuery := ""; isLoading := false;
                            hasMorePages := true; searchTimeout := None |};
                   api := api0;
                   dom := {| moviesGrid := []; errorHidden := true; errorMessage := "";
                             loadMoreHidden := true; spinnerHidden := true |};
                   currentUser := JNull; favorites := [];
                   awaiting := None; timers := []; next_timer := 1; journal := [] |}
                "getTrendingMovies" (JObj []) 1200 1300
                eq_refl eq_refl eq_refl eq_refl eq_refl ltac:(vm_compute; discriminate)) as H.
  exact (proj2 (proj2 (proj2 H))).
Defined.
